(** * Graceful restart of a FUSE server: a model of graceful.go

    The development follows the Go source function by function.  Go
    strings are [string]; Go's [int] is the 64-bit signed integer, kept
    in [Z] with its range written out; [uint32] is [Z] reduced modulo
    2^32.  The operating system (environment, files, processes, clock)
    is an explicit state threaded through a small state-and-panic monad. *)

From Stdlib Require Import ZArith Lia String Ascii.
From stdpp Require Import gmap strings list.

Local Open Scope Z_scope.

(** ** Go's library functions used by graceful.go *)

Module strconv.

Inductive NumError := ErrSyntax | ErrRange.

Definition max_int : Z := 2 ^ 63 - 1.
Definition min_int : Z := - 2 ^ 63.
Definition max_uint64 : Z := 2 ^ 64 - 1.

(** [c - '0'] as a digit, when [c] is one of '0'..'9'. *)
Definition digit_val (c : ascii) : option Z :=
  let n := Z.of_N (N_of_ascii c) in
  if (48 <=? n) && (n <=? 57) then Some (n - 48) else None.

Definition digit_char (d : Z) : ascii := ascii_of_N (Z.to_N (48 + d)).

(** The loop of the fast path of Atoi: [n = n*10 + int(ch)], a syntax
    error at the first byte that is no digit. *)
Fixpoint atoi_loop (s : string) (n : Z) : option Z :=
  match s with
  | EmptyString => Some n
  | String ch r =>
      match digit_val ch with
      | Some d => atoi_loop r (n * 10 + d)
      | None => None
      end
  end.

(** The loop of ParseUint(s, 10, 64): the same digits, with the two
    overflow checks against the 64-bit unsigned range. *)
Fixpoint parse_uint_loop (s : string) (n : Z) : Z + NumError :=
  match s with
  | EmptyString => inl n
  | String ch r =>
      match digit_val ch with
      | None => inr ErrSyntax
      | Some d =>
          if max_uint64 / 10 + 1 <=? n then inr ErrRange
          else
            let n1 := n * 10 + d in
            if max_uint64 <? n1 then inr ErrRange
            else parse_uint_loop r n1
      end
  end.

Definition is_sign (c : ascii) : bool :=
  Ascii.eqb c "-" || Ascii.eqb c "+".

(** ParseInt(s, 10, 0) on a 64-bit platform. *)
Definition ParseInt (s : string) : Z + NumError :=
  match s with
  | EmptyString => inr ErrSyntax
  | String c r =>
      let neg := Ascii.eqb c "-" in
      let body := if is_sign c then r else s in
      match body with
      | EmptyString => inr ErrSyntax
      | _ =>
          match parse_uint_loop body 0 with
          | inr e => inr e
          | inl un =>
              if negb neg && (2 ^ 63 <=? un) then inr ErrRange
              else if neg && (2 ^ 63 <? un) then inr ErrRange
              else inl (if neg then - un else un)
          end
      end
  end.

(** strconv.Atoi with intSize = 64: the fast path for strings of 1 to
    18 bytes, ParseInt otherwise. *)
Definition Atoi (s : string) : Z + NumError :=
  let sLen := Z.of_nat (String.length s) in
  if (0 <? sLen) && (sLen <? 19) then
    match s with
    | EmptyString => inr ErrSyntax
    | String c r =>
        let body := if is_sign c then r else s in
        match body with
        | EmptyString => inr ErrSyntax
        | _ =>
            match atoi_loop body 0 with
            | None => inr ErrSyntax
            | Some n => inl (if Ascii.eqb c "-" then - n else n)
            end
        end
    end
  else ParseInt s.

(** The decimal digits of [u], most significant first, pushed in front
    of [acc]; [fuel] bounds the number of digits (20 for 64 bits). *)
Fixpoint formatBits (fuel : nat) (u : Z) (acc : string) : string :=
  match fuel with
  | O => acc
  | S f =>
      if u <? 10 then String (digit_char u) acc
      else formatBits f (u / 10) (String (digit_char (u mod 10)) acc)
  end.

(** strconv.Itoa: FormatInt(int64(i), 10). *)
Definition Itoa (i : Z) : string :=
  if i <? 0 then String "-" (formatBits 20 (- i) EmptyString)
  else formatBits 20 i EmptyString.

End strconv.

Module strings.

(** strings.Split(s, sep) for a separator of one byte, which is how
    graceful.go calls it (sep = ","): one field more than there are
    separators, so Split of the empty string is one empty field. *)
Fixpoint Split (s : string) (sep : ascii) : list string :=
  match s with
  | EmptyString => [EmptyString]
  | String c r =>
      if Ascii.eqb c sep then EmptyString :: Split r sep
      else
        match Split r sep with
        | f :: fs => String c f :: fs
        | [] => [String c EmptyString]
        end
  end.

(** strings.Join(elems, sep). *)
Fixpoint Join (elems : list string) (sep : string) : string :=
  match elems with
  | [] => EmptyString
  | [x] => x
  | x :: r => x +:+ sep +:+ Join r sep
  end.

End strings.

(** Conversion int -> uint32: the low 32 bits. *)
Definition uint32 (i : Z) : Z := i mod 2 ^ 32.

(** Conversion uint32 -> int on a 64-bit platform: the value itself. *)
Definition int_of_uint32 (u : Z) : Z := u.

(** ** Errors *)

Inductive Errno := ENOENT | EACCES | EIO.

(** The values of Go's [error] that graceful.go produces or passes on;
    Go's [nil] error is [None : option error]. *)
Inductive error :=
| ErrGRestartFailed
| ErrGRestartChildNotReady
| ErrMsg (msg : string)
| ErrNum (fn : string) (num : string) (e : strconv.NumError)
| ErrPath (op : string) (path : string) (e : Errno).

(** os.IsNotExist. *)
Definition IsNotExist (err : option error) : bool :=
  match err with
  | Some (ErrPath _ _ ENOENT) => true
  | _ => false
  end.

(** ** The operating system as a state *)

Definition Signal := Z.

(** An open file: the path it was opened at and the current offset. *)
Record File := { name : string; offset : Z }.

(** What exec.Cmd.Start hands to the new process. *)
Record Child := {
  child_pid : Z;
  child_path : string;
  child_args : list string;
  child_env : gmap string string;
  child_extra : list (option File)
}.

(** A log.Logger, identified by a name. *)
Definition Logger := string.

Inductive LogEntry :=
| LogRecovering (pid : Z) (env : string)
| LogInvalidVersion (val : string) (e : strconv.NumError)
| LogStartChild (ver_str : string)
| LogForkError (e : error)
| LogChildOk (pid childPid : Z).

(** The calls into the kernel that can fail independently of the state
    modelled here (permissions, I/O errors, resource limits). *)
Inductive Syscall :=
| SysStat (path : string)
| SysRemove (path : string)
| SysOpen (path : string)
| SysSeek (path : string)
| SysWrite (path : string)
| SysTruncate (path : string)
| SysSync (path : string)
| SysExec (path : string).

Record OS := {
  environ : gmap string string;
  files : gmap string (list ascii);
  procs : gset Z;
  pid : Z;
  arg0 : string;
  args : list string;
  now : Z;
  next_pid : Z;
  spawned : list Child;
  logged : list (Logger * LogEntry);
  (** the failure, if any, that a call meets *)
  fault : Syscall -> option Errno;
  (** what the other processes do to the files and to the process table
      during the second that starts at the given time *)
  others : Z -> gmap string (list ascii) * gset Z ->
           gmap string (list ascii) * gset Z
}.

Definition set_environ (e : gmap string string) (w : OS) : OS :=
  {| environ := e; files := files w; procs := procs w; pid := pid w;
     arg0 := arg0 w; args := args w; now := now w; next_pid := next_pid w;
     spawned := spawned w; logged := logged w; fault := fault w;
     others := others w |}.

Definition set_files (f : gmap string (list ascii)) (w : OS) : OS :=
  {| environ := environ w; files := f; procs := procs w; pid := pid w;
     arg0 := arg0 w; args := args w; now := now w; next_pid := next_pid w;
     spawned := spawned w; logged := logged w; fault := fault w;
     others := others w |}.

Definition set_logged (l : list (Logger * LogEntry)) (w : OS) : OS :=
  {| environ := environ w; files := files w; procs := procs w; pid := pid w;
     arg0 := arg0 w; args := args w; now := now w; next_pid := next_pid w;
     spawned := spawned w; logged := l; fault := fault w;
     others := others w |}.

(** One second passes: the other processes act, the clock advances. *)
Definition tick (w : OS) : OS :=
  let fp := others w (now w) (files w, procs w) in
  {| environ := environ w; files := fst fp; procs := snd fp; pid := pid w;
     arg0 := arg0 w; args := args w; now := now w + 1;
     next_pid := next_pid w; spawned := spawned w; logged := logged w;
     fault := fault w; others := others w |}.

(** A new process [c] has been started. *)
Definition add_child (c : Child) (w : OS) : OS :=
  {| environ := environ w; files := files w;
     procs := {[ child_pid c ]} ∪ procs w; pid := pid w;
     arg0 := arg0 w; args := args w; now := now w;
     next_pid := next_pid w + 1; spawned := spawned w ++ [c];
     logged := logged w; fault := fault w; others := others w |}.

(** ** The monad of Go code: state and panic *)

Inductive Outcome (A : Type) :=
| Ret (a : A)
| Panic (msg : string).
Arguments Ret {A} a.
Arguments Panic {A} msg.

Definition Go (A : Type) : Type := OS -> Outcome A * OS.

Definition ret {A} (a : A) : Go A := fun w => (Ret a, w).

Definition panic {A} (msg : string) : Go A := fun w => (Panic msg, w).

Definition bind {A B} (m : Go A) (k : A -> Go B) : Go B :=
  fun w =>
    match m w with
    | (Ret a, w') => k a w'
    | (Panic msg, w') => (Panic msg, w')
    end.

Notation "'do' x <- m ; k" := (bind m (fun x => k))
  (at level 10, x name, m at level 100, k at level 200,
   format "'[v' 'do'  x  <-  m ; '/' k ']'").
Notation "'run' m ; k" := (bind m (fun _ => k))
  (at level 10, m at level 100, k at level 200,
   format "'[v' 'run'  m ; '/' k ']'").

(** ** Calls into the os, os/exec, time and log packages *)

Definition Getenv (key : string) : Go string :=
  fun w => (Ret (default EmptyString (environ w !! key)), w).

Definition Setenv (key value : string) : Go unit :=
  fun w => (Ret tt, set_environ (<[key := value]> (environ w)) w).

Definition Getpid : Go Z := fun w => (Ret (pid w), w).

(** logger.Printf and logger.Print: one more line in the log. *)
Definition Printf (lg : Logger) (l : LogEntry) : Go unit :=
  fun w => (Ret tt, set_logged (logged w ++ [(lg, l)]) w).

(** os.Stat, reduced to its error. *)
Definition Stat (path : string) : Go (option error) :=
  fun w =>
    match fault w (SysStat path) with
    | Some e => (Ret (Some (ErrPath "stat" path e)), w)
    | None =>
        match files w !! path with
        | Some _ => (Ret None, w)
        | None => (Ret (Some (ErrPath "stat" path ENOENT)), w)
        end
    end.

Definition Remove (path : string) : Go (option error) :=
  fun w =>
    match fault w (SysRemove path) with
    | Some e => (Ret (Some (ErrPath "remove" path e)), w)
    | None =>
        match files w !! path with
        | Some _ => (Ret None, set_files (delete path (files w)) w)
        | None => (Ret (Some (ErrPath "remove" path ENOENT)), w)
        end
    end.

(** time.Sleep(time.Second). *)
Definition Sleep : Go unit := fun w => (Ret tt, tick w).

(** os.OpenFile(path, os.O_CREATE|os.O_WRONLY, perm): the file is created
    empty when it does not exist and is left as it is when it does.  The
    result is the file or the error. *)
Definition OpenFile (path : string) : Go (File + error) :=
  fun w =>
    match fault w (SysOpen path) with
    | Some e => (Ret (inr (ErrPath "open" path e)), w)
    | None =>
        let f := {| name := path; offset := 0 |} in
        match files w !! path with
        | Some _ => (Ret (inl f), w)
        | None => (Ret (inl f), set_files (<[path := []]> (files w)) w)
        end
    end.

(** f.Seek(off, os.SEEK_SET). *)
Definition Seek (f : File) (off : Z) : Go (File * option error) :=
  fun w =>
    match fault w (SysSeek (name f)) with
    | Some e => (Ret (f, Some (ErrPath "seek" (name f) e)), w)
    | None => (Ret ({| name := name f; offset := off |}, None), w)
    end.

(** The bytes of a file after [data] is written at offset [off]: a gap
    past the end reads as zero bytes. *)
Definition write_at (off : nat) (data old : list ascii) : list ascii :=
  take off (old ++ replicate (off - length old)%nat zero)
    ++ data ++ drop (off + length data)%nat old.

(** f.Truncate(size). *)
Definition truncate_to (size : nat) (old : list ascii) : list ascii :=
  take size (old ++ replicate (size - length old)%nat zero).

(** fmt.Fprint(f, s): the number of bytes written and the error. *)
Definition Fprint (f : File) (s : string) : Go (File * Z * option error) :=
  fun w =>
    match fault w (SysWrite (name f)) with
    | Some e => (Ret (f, 0, Some (ErrPath "write" (name f) e)), w)
    | None =>
        let data := list_ascii_of_string s in
        let n := Z.of_nat (length data) in
        let old := default [] (files w !! name f) in
        (Ret ({| name := name f; offset := offset f + n |}, n, None),
         set_files (<[name f := write_at (Z.to_nat (offset f)) data old]>
                      (files w)) w)
    end.

Definition Truncate (f : File) (size : Z) : Go (option error) :=
  fun w =>
    match fault w (SysTruncate (name f)) with
    | Some e => (Ret (Some (ErrPath "truncate" (name f) e)), w)
    | None =>
        let old := default [] (files w !! name f) in
        (Ret None,
         set_files (<[name f := truncate_to (Z.to_nat size) old]> (files w)) w)
    end.

Definition Sync (f : File) : Go (option error) :=
  fun w =>
    match fault w (SysSync (name f)) with
    | Some e => (Ret (Some (ErrPath "sync" (name f) e)), w)
    | None => (Ret None, w)
    end.

(** exec.Command(path, args...) with ExtraFiles set, then Start: the child
    inherits the environment of this process as it is now.  The result is
    the error and, when there is none, child.Process.Pid. *)
Definition Start (path : string) (argv : list string)
    (extra : list (option File)) : Go (option error * Z) :=
  fun w =>
    match fault w (SysExec path) with
    | Some e => (Ret (Some (ErrPath "fork/exec" path e), 0), w)
    | None =>
        let c := {| child_pid := next_pid w; child_path := path;
                    child_args := argv; child_env := environ w;
                    child_extra := extra |} in
        (Ret (None, next_pid w), add_child c w)
    end.

(** ** The controller *)

Section Graceful.

(** MountConfig is declared outside graceful.go; the controller only
    stores it. *)
Context {MountConfig : Type}.

(** filepath.Join. *)
Variable filepath_Join : string -> string -> string.

(** os.FindProcess, reduced to its error. *)
Variable os_FindProcess : Z -> Go (option error).

Record Protocol := { Major : Z; Minor : Z }.

(** The fields of Connection that graceful.go sets. *)
Record Connection := {
  cfg : MountConfig;
  debugLogger : Logger;
  errorLogger : Logger;
  conn_dev : option File;
  cancelFuncs : gmap Z (Go unit);
  protocol : Protocol
}.

(** newConnection of connection.go: it performs the handshake with the
    kernel and returns the connection or an error. *)
Variable newConnection :
  MountConfig -> Logger -> Logger -> option File ->
  Go (option Connection * option error).

Record Graceful := {
  dev : option File;
  conn : option Connection;
  startNoti : list Signal;
  stop : bool;
  recoveredVer : list Z;
  recovered : bool;
  runDir : string;
  progName : string;
  restartNoti : list Signal;
  restarting : bool;
  pidFile : string;
  logger : Logger;
  RestartTimeout : Z
}.

Definition set_conn (c : option Connection) (gr : Graceful) : Graceful :=
  {| dev := dev gr; conn := c; startNoti := startNoti gr; stop := stop gr;
     recoveredVer := recoveredVer gr; recovered := recovered gr;
     runDir := runDir gr; progName := progName gr;
     restartNoti := restartNoti gr; restarting := restarting gr;
     pidFile := pidFile gr; logger := logger gr;
     RestartTimeout := RestartTimeout gr |}.

Definition set_recoveredVer (v : list Z) (gr : Graceful) : Graceful :=
  {| dev := dev gr; conn := conn gr; startNoti := startNoti gr;
     stop := stop gr; recoveredVer := v; recovered := recovered gr;
     runDir := runDir gr; progName := progName gr;
     restartNoti := restartNoti gr; restarting := restarting gr;
     pidFile := pidFile gr; logger := logger gr;
     RestartTimeout := RestartTimeout gr |}.

Definition set_recovered (b : bool) (gr : Graceful) : Graceful :=
  {| dev := dev gr; conn := conn gr; startNoti := startNoti gr;
     stop := stop gr; recoveredVer := recoveredVer gr; recovered := b;
     runDir := runDir gr; progName := progName gr;
     restartNoti := restartNoti gr; restarting := restarting gr;
     pidFile := pidFile gr; logger := logger gr;
     RestartTimeout := RestartTimeout gr |}.

Definition set_restartNoti (c : list Signal) (gr : Graceful) : Graceful :=
  {| dev := dev gr; conn := conn gr; startNoti := startNoti gr;
     stop := stop gr; recoveredVer := recoveredVer gr;
     recovered := recovered gr; runDir := runDir gr;
     progName := progName gr; restartNoti := c;
     restarting := restarting gr; pidFile := pidFile gr;
     logger := logger gr; RestartTimeout := RestartTimeout gr |}.

Definition set_restarting (b : bool) (gr : Graceful) : Graceful :=
  {| dev := dev gr; conn := conn gr; startNoti := startNoti gr;
     stop := stop gr; recoveredVer := recoveredVer gr;
     recovered := recovered gr; runDir := runDir gr;
     progName := progName gr; restartNoti := restartNoti gr;
     restarting := b; pidFile := pidFile gr; logger := logger gr;
     RestartTimeout := RestartTimeout gr |}.

Definition set_RestartTimeout (t : Z) (gr : Graceful) : Graceful :=
  {| dev := dev gr; conn := conn gr; startNoti := startNoti gr;
     stop := stop gr; recoveredVer := recoveredVer gr;
     recovered := recovered gr; runDir := runDir gr;
     progName := progName gr; restartNoti := restartNoti gr;
     restarting := restarting gr; pidFile := pidFile gr;
     logger := logger gr; RestartTimeout := t |}.

(** The loop of checkRecover over the fields of the record: each parsed
    field is appended; the first field that does not parse is logged and
    ends the function. *)
Fixpoint checkRecover_fields (gr : Graceful) (version : list string)
    : Go Graceful :=
  match version with
  | [] => ret gr
  | val :: rest =>
      match strconv.Atoi val with
      | inr e =>
          run Printf (logger gr) (LogInvalidVersion val e);
          ret gr
      | inl v =>
          checkRecover_fields
            (set_recoveredVer (recoveredVer gr ++ [v]) gr) rest
      end
  end.

Definition checkRecover (gr : Graceful) : Go Graceful :=
  do env <- Getenv "_GRACEFUL_RESTART";
  if String.eqb env "" then ret gr
  else
    let gr := set_recovered true gr in
    do p <- Getpid;
    run Printf (logger gr) (LogRecovering p env);
    checkRecover_fields gr (strings.Split env ",").

Definition NewGraceful (lg : Logger) (runDir_ progName_ : string)
    : Go Graceful :=
  let gr :=
    {| dev := None; conn := None; startNoti := []; stop := false;
       recoveredVer := []; recovered := false; runDir := runDir_;
       progName := progName_; restartNoti := []; restarting := false;
       pidFile := EmptyString; logger := lg; RestartTimeout := 0 |} in
  do gr <- checkRecover gr;
  ret (set_RestartTimeout 60 gr).

Definition GetConnection (gr : Graceful) (cfg_ : MountConfig)
    (debugLogger_ errorLogger_ : Logger) (dev_ : option File)
    : Go (Graceful * option error) :=
  if recovered gr then
    do env <- Getenv "_GRACEFUL_RESTART";
    if String.eqb env "" then
      ret (gr, Some (ErrMsg "Cannot get fuse version"))
    else
      match strings.Split env "," with
      | [v0; v1] =>
          let c :=
            {| cfg := cfg_; debugLogger := debugLogger_;
               errorLogger := errorLogger_; conn_dev := dev_;
               cancelFuncs := ∅;
               protocol := {| Major := 0; Minor := 0 |} |} in
          let gr := set_conn (Some c) gr in
          match strconv.Atoi v0 with
          | inr e => ret (gr, Some (ErrNum "Atoi" v0 e))
          | inl major =>
              match strconv.Atoi v1 with
              | inr e => ret (gr, Some (ErrNum "Atoi" v1 e))
              | inl minor =>
                  let c :=
                    {| cfg := cfg_; debugLogger := debugLogger_;
                       errorLogger := errorLogger_; conn_dev := dev_;
                       cancelFuncs := ∅;
                       protocol := {| Major := uint32 major;
                                      Minor := uint32 minor |} |} in
                  ret (set_conn (Some c) gr, None)
              end
          end
      | _ => ret (gr, Some (ErrMsg "Invalid version length"))
      end
  else
    do r <- newConnection cfg_ debugLogger_ errorLogger_ dev_;
    ret (set_conn (fst r) gr, snd r).

Definition getChildPath (gr : Graceful) (p : Z) : string :=
  filepath_Join (runDir gr) (progName gr +:+ "_" +:+ strconv.Itoa p).

(** The handoff record that Restart writes into the environment. *)
Definition ver_str (c : Connection) : string :=
  strings.Join
    [strconv.Itoa (int_of_uint32 (Major (protocol c)));
     strconv.Itoa (int_of_uint32 (Minor (protocol c)))] ",".

(** The end of Restart, after the loop. *)
Definition Restart_timeout (childPid : Z) : Go (Z * option error) :=
  do err <- os_FindProcess childPid;
  match err with
  | None => ret (childPid, Some ErrGRestartChildNotReady)
  | Some _ => ret (0, Some ErrGRestartFailed)
  end.

(** The loop of Restart with [n] iterations left. *)
Fixpoint Restart_wait (gr : Graceful) (childPid : Z) (childPath : string)
    (n : nat) : Go (Z * option error) :=
  match n with
  | O => Restart_timeout childPid
  | S n' =>
      do err <- Stat childPath;
      if negb (IsNotExist err) then
        run Remove childPath;
        do p <- Getpid;
        run Printf (logger gr) (LogChildOk p childPid);
        ret (childPid, None)
      else
        run Sleep;
        Restart_wait gr childPid childPath n'
  end.

Definition Restart (gr : Graceful) : Go (Z * option error) :=
  match conn gr with
  | None => panic "invalid memory address or nil pointer dereference"
  | Some c =>
      let ver := ver_str c in
      run Setenv "_GRACEFUL_RESTART" ver;
      run Printf (logger gr) (LogStartChild ver);
      do path <- (fun w => (Ret (arg0 w), w));
      do argv <- (fun w => (Ret (args w), w));
      do r <- Start path argv [dev gr];
      match r with
      | (Some err, _) =>
          run Printf (logger gr) (LogForkError err);
          ret (0, Some ErrGRestartFailed)
      | (None, childPid) =>
          Restart_wait gr childPid (getChildPath gr childPid)
            (Z.to_nat (RestartTimeout gr))
      end
  end.

Definition WritePidFile (runDir_ progName_ : string) : Go (option error) :=
  let pidFile_ := filepath_Join runDir_ (progName_ +:+ ".pid") in
  do r <- OpenFile pidFile_;
  match r with
  | inl f =>
      do r <- Seek f 0;
      match r with
      | (f, None) =>
          do p <- Getpid;
          do r <- Fprint f (strconv.Itoa p);
          match r with
          | (f, fileLen, None) =>
              do err <- Truncate f fileLen;
              match err with
              | None =>
                  do err <- Sync f;
                  match err with
                  | None => ret None
                  | Some e => ret (Some e)
                  end
              | Some e => ret (Some e)
              end
          | (_, _, Some e) => ret (Some e)
          end
      | (_, Some e) => ret (Some e)
      end
  | inr e => ret (Some e)
  end.

(** *** The watch tasks

    Ready starts watchDaemon as a task of its own ([go]) and has the
    runtime relay the restart signal to [restartNoti], a channel with a
    buffer of one.  The tasks of a controller and the runtime's
    deliveries interleave; one transition is one of the atomic steps of
    watchDaemon.  What the callback returns is up to the caller. *)

Inductive Task :=
| Waiting      (** blocked in the select on restartNoti *)
| Received     (** a signal was taken from the channel *)
| InCallback   (** gr.restartCb() is running *)
| Exited.      (** watchDaemon has returned *)

Record Watch := {
  ctl : Graceful;
  tasks : list Task;
  invoked : nat        (** how often the callback has been called *)
}.

Inductive Label :=
| Deliver (sig : Signal)
| Receive (i : nat)
| Skip (i : nat)
| Invoke (i : nat)
| Return (i : nat) (err : option error).

(** The runtime's send never blocks: a signal that finds the buffer full
    is dropped. *)
Definition deliver (sig : Signal) (gr : Graceful) : Graceful :=
  if (length (restartNoti gr) <? 1)%nat
  then set_restartNoti (restartNoti gr ++ [sig]) gr
  else gr.

Definition watch_step (l : Label) (s : Watch) : option Watch :=
  match l with
  | Deliver sig =>
      Some {| ctl := deliver sig (ctl s); tasks := tasks s;
              invoked := invoked s |}
  | Receive i =>
      (* case <-gr.restartNoti *)
      match tasks s !! i, restartNoti (ctl s) with
      | Some Waiting, _ :: rest =>
          Some {| ctl := set_restartNoti rest (ctl s);
                  tasks := <[i := Received]> (tasks s);
                  invoked := invoked s |}
      | _, _ => None
      end
  | Skip i =>
      (* Lock; restarting is set; Unlock; continue *)
      match tasks s !! i with
      | Some Received =>
          if restarting (ctl s)
          then Some {| ctl := ctl s; tasks := <[i := Waiting]> (tasks s);
                       invoked := invoked s |}
          else None
      | _ => None
      end
  | Invoke i =>
      (* Lock; restarting = true; Unlock; the callback is called *)
      match tasks s !! i with
      | Some Received =>
          if restarting (ctl s) then None
          else Some {| ctl := set_restarting true (ctl s);
                       tasks := <[i := InCallback]> (tasks s);
                       invoked := S (invoked s) |}
      | _ => None
      end
  | Return i None =>
      (* err == nil: return *)
      match tasks s !! i with
      | Some InCallback =>
          Some {| ctl := ctl s; tasks := <[i := Exited]> (tasks s);
                  invoked := invoked s |}
      | _ => None
      end
  | Return i (Some _) =>
      (* restarting = false; next iteration *)
      match tasks s !! i with
      | Some InCallback =>
          Some {| ctl := set_restarting false (ctl s);
                  tasks := <[i := Waiting]> (tasks s);
                  invoked := invoked s |}
      | _ => None
      end
  end.

Fixpoint watch_run (tr : list Label) (s : Watch) : option Watch :=
  match tr with
  | [] => Some s
  | l :: tr' =>
      match watch_step l s with
      | Some s' => watch_run tr' s'
      | None => None
      end
  end.

(** A controller as NewGraceful leaves it, with [n] watch tasks. *)
Definition watch_init (gr : Graceful) (n : nat) : Watch :=
  {| ctl := gr; tasks := replicate n Waiting; invoked := 0 |}.




Definition is_deliver (l : Label) : bool :=
  match l with Deliver _ => true | _ => false end.

(** The label is a step of task [i]. *)
Definition by_task (i : nat) (l : Label) : bool :=
  match l with
  | Deliver _ => false
  | Receive j | Skip j | Invoke j | Return j _ => Nat.eqb i j
  end.

End Graceful.


(** ** Ready and the restart callback of MountWithGraceful

    Ready and the callback that MountWithGraceful registers also act on
    what lies outside the file system: they start a task, register for a
    signal, call the server, signal the child.  These calls are kept, in
    order, in a trace beside the state of the operating system. *)

(** syscall.SIGHUP and syscall.SIGUSR1 on Linux. *)
Definition SIGHUP : Signal := 1.
Definition SIGUSR1 : Signal := 10.

(** The error of syscall.Kill for a process that does not exist. *)
Inductive KillErrno := ESRCH.

(** An argument of a log line. *)
Inductive LogArg :=
| ArgInt (n : Z)
| ArgErr (e : error).

(** The errors that Ready builds with fmt.Errorf. *)
Inductive ReadyError :=
| ErrCannotCreatePidfile (cause : error)
| ErrCannotCreate (path : string) (cause : error).

Section Host.

Context {MountConfig : Type}.

(** The type of the callbacks handed to Ready. *)
Context {CB : Type}.

Variable filepath_Join : string -> string -> string.
Variable os_FindProcess : Z -> Go (option error).

Inductive Event :=
| EvSetRestartCb (cb : CB)     (** gr.restartCb = restartFunc *)
| EvGoWatchDaemon              (** go gr.watchDaemon() *)
| EvNotify (sig : Signal)      (** signal.Notify(gr.restartNoti, sig) *)
| EvLog (lg : Logger) (format : string) (a : list LogArg)
| EvServerStop                 (** server.Stop() *)
| EvKill (p : Z) (sig : Signal). (** syscall.Kill(p, sig) *)

(** Go code with a trace. *)
Definition Act (A : Type) : Type := list Event -> Go (A * list Event).

Definition aret {A} (a : A) : Act A := fun tr => ret (a, tr).

Definition abind {A B} (m : Act A) (k : A -> Act B) : Act B :=
  fun tr => bind (m tr) (fun r => k (fst r) (snd r)).

Definition lift {A} (m : Go A) : Act A :=
  fun tr => bind m (fun a => ret (a, tr)).

Definition emit (e : Event) : Act unit := fun tr => ret (tt, tr ++ [e]).

Notation "'act' x <- m ; k" := (abind m (fun x => k))
  (at level 10, x name, m at level 100, k at level 200,
   format "'[v' 'act'  x  <-  m ; '/' k ']'").
Notation "'after' m ; k" := (abind m (fun _ => k))
  (at level 10, m at level 100, k at level 200,
   format "'[v' 'after'  m ; '/' k ']'").

(** syscall.Kill(p, sig) for a process id [p > 0]: it fails when there is
    no such process. *)
Definition Kill (p : Z) (sig : Signal) : Act (option KillErrno) :=
  fun tr w =>
    (Ret (if decide (p ∈ procs w) then None else Some ESRCH,
          tr ++ [EvKill p sig]), w).

Definition set_stop (b : bool) (gr : @Graceful MountConfig)
    : @Graceful MountConfig :=
  {| dev := dev gr; conn := conn gr; startNoti := startNoti gr; stop := b;
     recoveredVer := recoveredVer gr; recovered := recovered gr;
     runDir := runDir gr; progName := progName gr;
     restartNoti := restartNoti gr; restarting := restarting gr;
     pidFile := pidFile gr; logger := logger gr;
     RestartTimeout := RestartTimeout gr |}.

(** Ready of graceful.go.  The file of the marker is closed at once and
    nothing is written to it. *)
Definition Ready (gr : @Graceful MountConfig) (sig : Signal)
    (restartFunc : CB) : Act (option ReadyError) :=
  let register : Act (option ReadyError) :=
    after emit (EvSetRestartCb restartFunc);
    after emit EvGoWatchDaemon;
    after emit (EvNotify sig);
    act p <- lift Getpid;
    after emit (EvLog (logger gr) "Process %d ready" [ArgInt p]);
    aret None in
  act err <- lift (WritePidFile filepath_Join (runDir gr) (progName gr));
  match err with
  | Some e => aret (Some (ErrCannotCreatePidfile e))
  | None =>
      if recovered gr then
        act p <- lift Getpid;
        let childPath := getChildPath filepath_Join gr p in
        act r <- lift (OpenFile childPath);
        match r with
        | inr e => aret (Some (ErrCannotCreate childPath e))
        | inl _ => register
        end
      else register
  end.

(** triggerOps of mount.go: the error of Start is dropped. *)
Definition triggerOps (dir : string) : Go unit :=
  run Start "stat" [dir] [];
  ret tt.

(** The callback that MountWithGraceful hands to Ready; [config] is
    reduced to its DebugLogger.  close(gr.stop) panics on a channel that
    is closed already. *)
Definition restartCallback (dir : string) (DebugLogger : Logger)
    (gr : @Graceful MountConfig)
    : Act (@Graceful MountConfig * option error) :=
  act r <- lift (Restart filepath_Join os_FindProcess gr);
  let child := fst r in
  let err := snd r in
  let handoff : Act (@Graceful MountConfig * option error) :=
    after emit EvServerStop;
    after lift (triggerOps dir);
    act kerr <- Kill child SIGUSR1;
    after match kerr with
         | Some _ =>
             emit (EvLog DebugLogger "Failed to end SIGUSR1 to child"
                     [ArgInt child])
         | None => aret tt
         end;
    if stop gr then lift (panic "close of closed channel")
    else aret (set_stop true gr, err) in
  match err with
  | None => handoff
  | Some e =>
      after emit (EvLog DebugLogger "gracefule retart error: %v" [ArgErr e]);
      match e with
      | ErrGRestartFailed => aret (gr, err)
      | _ => handoff
      end
  end.

End Host.

(** The files after os.OpenFile(path, O_CREATE|O_WRONLY) has succeeded: a
    file that exists keeps its content, a missing one is created empty. *)
Definition touched (path : string) (f : gmap string (list ascii))
    : gmap string (list ascii) :=
  match f !! path with
  | Some _ => f
  | None => <[path := []]> f
  end.

(** The pid file of WritePidFile and what it is to hold. *)
Definition pid_path (filepath_Join : string -> string -> string)
    (rd pn : string) : string :=
  filepath_Join rd (pn +:+ ".pid").

Definition pid_text (w : OS) : list ascii :=
  list_ascii_of_string (strconv.Itoa (pid w)).

(** What Ready adds to the trace when it succeeds in a process with pid
    [p]: the callback is stored, the watch task started, the signal
    registered, the line logged. *)
Definition ready_trace {MountConfig CB : Type} (gr : @Graceful MountConfig)
    (sig : Signal) (cb : CB) (p : Z) : list (@Event CB) :=
  [EvSetRestartCb cb; EvGoWatchDaemon; EvNotify sig;
   EvLog (logger gr) "Process %d ready" [ArgInt p]].

(** What the restart callback adds to the trace when it hands over to the
    child [child] after Restart returned [err]: the line for the error if
    there is one, the stop of the server, the signal to the child, and the
    line for a signal that could not be sent. *)
Definition handoff_trace {CB : Type} (DebugLogger : Logger) (child : Z)
    (err : option error) (sent : bool) : list (@Event CB) :=
  match err with
  | Some e => [EvLog DebugLogger "gracefule retart error: %v" [ArgErr e]]
  | None => []
  end
  ++ [EvServerStop; EvKill child SIGUSR1]
  ++ (if sent then []
      else [EvLog DebugLogger "Failed to end SIGUSR1 to child"
              [ArgInt child]]).

(** How many tasks hold a signal they have taken from the channel. *)
Definition is_received (t : Task) : nat :=
  match t with Received => 1 | _ => 0 end.

Fixpoint received (l : list Task) : nat :=
  match l with
  | [] => 0
  | t :: r => is_received t + received r
  end.

(** How many signals the runtime has relayed along a run. *)
Definition deliveries (tr : list Label) : nat :=
  length (filter (fun l => is_deliver l = true) tr).




(** The names of the two files of a process [p] in the run directory:
    "%s_%d" of getChildPath and "%s.pid" of WritePidFile. *)
Definition marker_name (pn : string) (p : Z) : string :=
  pn +:+ "_" +:+ strconv.Itoa p.

Definition pid_name (pn : string) : string := pn +:+ ".pid".

(** The names the package joins to the run directory, for pids in the
    range of int. *)
Definition run_name (pn : string) (a : string) : Prop :=
  a = pid_name pn \/ exists p, 0 <= p < 2 ^ 63 /\ a = marker_name pn p.

(** What a process with pid [p] that shares the files [f] sees when no
    call fails. *)
Definition child_view (p : Z) (f : gmap string (list ascii)) : OS :=
  {| environ := ∅; files := f; procs := {[ p ]}; pid := p;
     arg0 := EmptyString; args := []; now := 0; next_pid := p + 1;
     spawned := []; logged := []; fault := fun _ => None;
     others := fun _ k => k |}.

(** The other side of the handshake: the child [p] calls Ready during the
    second that starts at [t0]; nothing else happens. *)
Definition child_calls_Ready {MountConfig CB : Type}
    (filepath_Join : string -> string -> string)
    (gr_child : @Graceful MountConfig) (sig : Signal) (cb : CB) (p t0 : Z)
    (t : Z) (k : gmap string (list ascii) * gset Z)
    : gmap string (list ascii) * gset Z :=
  if t =? t0
  then (files (snd (Ready filepath_Join gr_child sig cb []
                      (child_view p (fst k)))), snd k)
  else k.

(** ** Instances for the examples and vocabulary of the statements *)

(** filepath.Join where it does not have to clean anything: for a clean
    directory other than the root and the empty one, such as "/run", and
    a plain file name (no separator; not empty, "." or "..").  Elsewhere
    filepath.Join differs: Join("/", "x") is "/x" and Join(d, ".") is d. *)
Definition plain_join (dir file : string) : string := dir +:+ "/" +:+ file.

(** os.FindProcess on Unix: "On Unix systems, FindProcess always succeeds
    and returns a Process for the given pid, regardless of whether the
    process exists" (documentation of package os). *)
Definition unix_FindProcess (p : Z) : Go (option error) := ret None.

(** A lookup that consults the process table, which is what the comment
    in Restart ("Child process actually exists") takes FindProcess to be. *)
Definition table_FindProcess (p : Z) : Go (option error) :=
  fun w =>
    if decide (p ∈ procs w) then (Ret None, w)
    else (Ret (Some (ErrMsg "os: process not found")), w).

Definition no_fault : Syscall -> option Errno := fun _ => None.

Definition quiet (t : Z) (k : gmap string (list ascii) * gset Z)
    : gmap string (list ascii) * gset Z := k.

(** A process with pid 100 whose next child gets pid 101. *)
Definition mk_world (f : Syscall -> option Errno)
    (o : Z -> gmap string (list ascii) * gset Z ->
         gmap string (list ascii) * gset Z) : OS :=
  {| environ := ∅; files := ∅; procs := {[ 100 ]}; pid := 100;
     arg0 := "/usr/bin/qfs-fuse"; args := ["/mnt/qfs"%string]; now := 0;
     next_pid := 101; spawned := []; logged := []; fault := f;
     others := o |}.

Definition world0 : OS := mk_world no_fault quiet.

Definition marker_101 : string := "/run/qfs-fuse_101".

(** The child leaves within the first second and never writes a marker. *)
Definition child_exits (t : Z) (k : gmap string (list ascii) * gset Z)
    : gmap string (list ascii) * gset Z :=
  (fst k, snd k ∖ {[ 101 ]}).

(** The child writes its marker during the second that starts at [t0]. *)
Definition child_ready_at (t0 t : Z) (k : gmap string (list ascii) * gset Z)
    : gmap string (list ascii) * gset Z :=
  if t =? t0 then (<[marker_101 := []]> (fst k), snd k) else k.

(** The marker cannot be removed. *)
Definition remove_denied (sc : Syscall) : option Errno :=
  match sc with
  | SysRemove path => if String.eqb path marker_101 then Some EACCES else None
  | _ => None
  end.

(** The run directory cannot be searched: stat and remove are refused. *)
Definition run_dir_denied (sc : Syscall) : option Errno :=
  match sc with
  | SysStat _ | SysRemove _ => Some EACCES
  | _ => None
  end.

(** The executable cannot be started. *)
Definition exec_denied (sc : Syscall) : option Errno :=
  match sc with
  | SysExec _ => Some EACCES
  | _ => None
  end.

(** A process with pid 7 that finds the pid file of process 123456. *)
Definition world_pid7 : OS :=
  {| environ := ∅;
     files := {[ "/run/qfs-fuse.pid"%string := list_ascii_of_string "123456" ]};
     procs := {[ 7 ]}; pid := 7;
     arg0 := "/usr/bin/qfs-fuse"; args := ["/mnt/qfs"%string]; now := 0;
     next_pid := 8; spawned := []; logged := []; fault := no_fault;
     others := quiet |}.

(** A process started with the handoff record [env] in its environment. *)
Definition with_record (env : string) : OS :=
  set_environ {[ "_GRACEFUL_RESTART"%string := env ]} world0.

(** A session constructor that must not be called. *)
Definition no_handshake (c : unit) (d e : Logger) (f : option File)
    : Go (option (@Connection unit) * option error) :=
  panic "handshake".

Definition fresh_ctl : @Graceful unit :=
  {| dev := None; conn := None; startNoti := []; stop := false;
     recoveredVer := []; recovered := false; runDir := "/run";
     progName := "qfs-fuse"; restartNoti := []; restarting := false;
     pidFile := EmptyString; logger := "debug"; RestartTimeout := 60 |}.

Definition recovered_ctl (ver : list Z) : @Graceful unit :=
  set_recovered true (set_recoveredVer ver fresh_ctl).

Definition fuse_dev : File := {| name := "/dev/fuse"; offset := 0 |}.

(** A session with protocol version 7.31. *)
Definition session_7_31 : @Connection unit :=
  {| cfg := tt; debugLogger := "debug"; errorLogger := "error";
     conn_dev := Some fuse_dev; cancelFuncs := ∅;
     protocol := {| Major := 7; Minor := 31 |} |}.

(** A controller that serves that session. *)
Definition serving_ctl : @Graceful unit :=
  set_conn (Some session_7_31) fresh_ctl.

(** No file can be opened. *)
Definition open_denied (sc : Syscall) : option Errno :=
  match sc with
  | SysOpen _ => Some EACCES
  | _ => None
  end.

(** The marker of a process with pid 100 cannot be opened. *)
Definition marker_open_denied (sc : Syscall) : option Errno :=
  match sc with
  | SysOpen path =>
      if String.eqb path "/run/qfs-fuse_100" then Some EACCES else None
  | _ => None
  end.

(** A process with pid 7 that finds the pid file of process 123456 and
    cannot truncate it. *)
Definition world_pid7_no_truncate : OS :=
  {| environ := ∅;
     files := {[ "/run/qfs-fuse.pid"%string := list_ascii_of_string "123456" ]};
     procs := {[ 7 ]}; pid := 7;
     arg0 := "/usr/bin/qfs-fuse"; args := ["/mnt/qfs"%string]; now := 0;
     next_pid := 8; spawned := []; logged := [];
     fault := fun sc => match sc with
                        | SysTruncate _ => Some EIO
                        | _ => None
                        end;
     others := quiet |}.

(** A process that finds a marker for pid 101 left behind. *)
Definition world_stale_marker : OS :=
  {| environ := ∅; files := {[ marker_101 := [] ]}; procs := {[ 100 ]};
     pid := 100; arg0 := "/usr/bin/qfs-fuse"; args := ["/mnt/qfs"%string];
     now := 0; next_pid := 101; spawned := []; logged := [];
     fault := no_fault; others := quiet |}.

(** The child 101, recovered with version 7.31, calls Ready two seconds
    after the parent started it. *)
Definition world_handshake : OS :=
  mk_world no_fault
    (child_calls_Ready plain_join (recovered_ctl [7; 31]) SIGHUP tt 101 2).

(** What os.Getenv("_GRACEFUL_RESTART") returns: the empty string when
    the variable is not set. *)
Definition handoff_record (w : OS) : string :=
  default EmptyString (environ w !! "_GRACEFUL_RESTART"%string).

(** The fields that checkRecover keeps: those before the first one that
    Atoi rejects. *)
Fixpoint parsed_prefix (fields : list string) : list Z :=
  match fields with
  | [] => []
  | f :: r =>
      match strconv.Atoi f with
      | inl v => v :: parsed_prefix r
      | inr _ => []
      end
  end.

(** The line that checkRecover logs for the first field Atoi rejects. *)
Fixpoint invalid_log (lg : Logger) (fields : list string)
    : list (Logger * LogEntry) :=
  match fields with
  | [] => []
  | f :: r =>
      match strconv.Atoi f with
      | inl _ => invalid_log lg r
      | inr e => [(lg, LogInvalidVersion f e)]
      end
  end.

(** An optionally signed run of decimal digits, read without any bound on
    the value. *)
Definition signed_decimal (s : string) : option Z :=
  match s with
  | EmptyString => None
  | String c r =>
      if strconv.is_sign c then
        match r with
        | EmptyString => None
        | _ =>
            match strconv.atoi_loop r 0 with
            | Some n => Some (if Ascii.eqb c "-" then - n else n)
            | None => None
            end
        end
      else strconv.atoi_loop s 0
  end.

(** The value fits Go's 64-bit int. *)
Definition fits_int (v : Z) : Prop := strconv.min_int <= v <= strconv.max_int.

(** Every byte is a decimal digit. *)
Fixpoint all_digits (s : string) : bool :=
  match s with
  | EmptyString => true
  | String c r =>
      match strconv.digit_val c with
      | Some _ => all_digits r
      | None => false
      end
  end.

(** A non-negative decimal integer: one digit or more. *)
Definition is_natural (s : string) : bool :=
  negb (String.eqb s "") && all_digits s.

(** The handoff record as the spec words it: exactly two fields, each a
    non-negative decimal integer. *)
Definition well_formed_record (env : string) : bool :=
  match strings.Split env "," with
  | [a; b] => is_natural a && is_natural b
  | _ => false
  end.

(** [k] seconds pass. *)
Fixpoint ticks (k : nat) (w : OS) : OS :=
  match k with
  | O => w
  | S k' => ticks k' (tick w)
  end.

(** The test of the loop of Restart: os.Stat reports anything but
    "does not exist". *)
Definition marker_seen (path : string) (w : OS) : bool :=
  match Stat path w with
  | (Ret err, _) => negb (IsNotExist err)
  | (Panic _, _) => false
  end.

(** The state right after Restart has started the child: the record is in
    the environment, the line is logged, the child exists. *)
Definition launched {MountConfig : Type} (gr : @Graceful MountConfig)
    (c : @Connection MountConfig) (w : OS) : OS :=
  let w1 :=
    set_logged (logged w ++ [(logger gr, LogStartChild (ver_str c))])
      (set_environ (<["_GRACEFUL_RESTART"%string := ver_str c]> (environ w))
         w) in
  add_child {| child_pid := next_pid w; child_path := arg0 w;
               child_args := args w; child_env := environ w1;
               child_extra := [dev gr] |} w1.

(** The state in which Restart returns success when the test of the loop
    holds in [w]: the removal has been tried, the line is logged. *)
Definition observed {MountConfig : Type} (gr : @Graceful MountConfig)
    (childPid : Z) (path : string) (w : OS) : OS :=
  let w1 := snd (Remove path w) in
  set_logged (logged w1 ++ [(logger gr, LogChildOk (pid w1) childPid)]) w1.

(** The session that GetConnection builds on a recovered start. *)
Definition recovered_conn {MountConfig : Type} (cfg_ : MountConfig)
    (dl el : Logger) (dev_ : option File) (major minor : Z)
    : @Connection MountConfig :=
  {| cfg := cfg_; debugLogger := dl; errorLogger := el; conn_dev := dev_;
     cancelFuncs := ∅;
     protocol := {| Major := major; Minor := minor |} |}.





Definition first_call : @Watch unit :=
  {| ctl := set_restarting true fresh_ctl;
     tasks := [InCallback]; invoked := 1 |}.





(** ** Decimal text: printing, parsing, splitting *)

Section Decimal.
Import strconv.
Local Arguments String.append : simpl nomatch.

Lemma digit_val_char d : 0 <= d < 10 -> digit_val (digit_char d) = Some d.
Proof.
  intros H.
  assert (d = 0 \/ d = 1 \/ d = 2 \/ d = 3 \/ d = 4 \/ d = 5 \/ d = 6 \/
          d = 7 \/ d = 8 \/ d = 9) as Hd by lia.
  destruct Hd as [->|[->|[->|[->|[->|[->|[->|[->|[->| ->]]]]]]]]];
    reflexivity.
Qed.

Lemma digit_not_comma c d : digit_val c = Some d -> Ascii.eqb c "," = false.
Proof.
  unfold digit_val. intros H.
  destruct (Ascii.eqb_spec c ","); [subst; discriminate | reflexivity].
Qed.

Lemma digit_not_sign c d : digit_val c = Some d -> is_sign c = false.
Proof.
  unfold digit_val, is_sign. intros H.
  destruct (Ascii.eqb_spec c "-"); [subst; discriminate |].
  destruct (Ascii.eqb_spec c "+"); [subst; discriminate | reflexivity].
Qed.

Lemma digit_not_minus c d : digit_val c = Some d -> Ascii.eqb c "-" = false.
Proof.
  unfold digit_val. intros H.
  destruct (Ascii.eqb_spec c "-"); [subst; discriminate | reflexivity].
Qed.

Lemma atoi_loop_app a b n :
  atoi_loop (a +:+ b) n =
  match atoi_loop a n with Some m => atoi_loop b m | None => None end.
Proof.
  revert n. induction a as [|c a IH]; intros n; simpl; [reflexivity|].
  destruct (digit_val c); [apply IH | reflexivity].
Qed.

Lemma all_digits_app a b :
  all_digits (a +:+ b) = all_digits a && all_digits b.
Proof.
  induction a as [|c a IH]; simpl; [reflexivity|].
  destruct (digit_val c); [exact IH | reflexivity].
Qed.

Lemma length_app_string a b :
  String.length (a +:+ b) = (String.length a + String.length b)%nat.
Proof. induction a as [|c a IH]; simpl; [reflexivity | now rewrite IH]. Qed.

Lemma app_string_assoc a b c : (a +:+ b) +:+ c = a +:+ (b +:+ c).
Proof. induction a as [|x a IH]; simpl; [reflexivity | now rewrite IH]. Qed.

Lemma app_string_nil a : a +:+ EmptyString = a.
Proof. induction a as [|x a IH]; simpl; [reflexivity | now rewrite IH]. Qed.

(** formatBits prints [u] in at most [k] digits when [u < 10^k], and the
    fast loop of Atoi reads the digits back. *)
Lemma formatBits_digits fuel : forall (k : nat) u acc,
  (1 <= fuel)%nat -> (k <= fuel)%nat -> 0 <= u < 10 ^ Z.of_nat k ->
  exists ds,
    formatBits fuel u acc = ds +:+ acc /\ all_digits ds = true /\
    (1 <= String.length ds <= Nat.max k 1)%nat /\
    atoi_loop ds 0 = Some u.
Proof.
  induction fuel as [|f IH]; intros k u acc Hf Hk Hu; [lia|].
  simpl. destruct (Z.ltb_spec u 10) as [Hlt|Hge].
  - exists (String (digit_char u) EmptyString). simpl.
    rewrite digit_val_char by lia. repeat split; try lia. 
  - destruct k as [|k]; [simpl in Hu; lia|].
    destruct k as [|k]; [simpl in Hu; lia|].
    assert (Hq : 0 <= u / 10 < 10 ^ Z.of_nat (S k)).
    { split; [apply Z.div_pos; lia|].
      apply Z.div_lt_upper_bound; [lia|].
      replace (Z.of_nat (S (S k))) with (Z.succ (Z.of_nat (S k))) in Hu
        by lia.
      rewrite Z.pow_succ_r in Hu by lia. lia. }
    destruct (IH (S k) (u / 10) (String (digit_char (u mod 10)) acc))
      as (ds & Heq & Hd & Hlen & Hval); [lia | lia | exact Hq |].
    exists (ds +:+ String (digit_char (u mod 10)) EmptyString).
    rewrite Heq, app_string_assoc. simpl.
    rewrite all_digits_app, Hd, length_app_string, atoi_loop_app, Hval.
    simpl.
    assert (Hm : 0 <= u mod 10 < 10) by (apply Z.mod_pos_bound; lia).
    rewrite digit_val_char by exact Hm.
    repeat split; try lia.
    f_equal. pose proof (Z.div_mod u 10). lia.
Qed.

(** A 32-bit unsigned value prints as one to ten digits. *)
Lemma Itoa_uint32 u :
  0 <= u < 2 ^ 32 ->
  all_digits (Itoa u) = true /\
  (1 <= String.length (Itoa u) <= 10)%nat /\
  atoi_loop (Itoa u) 0 = Some u.
Proof.
  intros Hu. unfold Itoa.
  destruct (Z.ltb_spec u 0) as [?|_]; [lia|].
  destruct (formatBits_digits 20 10 u EmptyString)
    as (ds & Heq & Hd & Hlen & Hval); [lia | lia | simpl; lia |].
  rewrite Heq, app_string_nil. repeat split; auto; lia.
Qed.

(** Atoi on one to eighteen digits takes the fast path. *)
Lemma Atoi_digits s u :
  all_digits s = true -> (1 <= String.length s <= 18)%nat ->
  atoi_loop s 0 = Some u -> Atoi s = inl u.
Proof.
  intros Hd Hlen Hval. unfold Atoi.
  destruct (Z.ltb_spec 0 (Z.of_nat (String.length s))) as [_|?]; [|lia].
  destruct (Z.ltb_spec (Z.of_nat (String.length s)) 19) as [_|?]; [|lia].
  simpl. destruct s as [|c r]; [simpl in Hlen; lia|].
  simpl in Hd. destruct (digit_val c) as [d|] eqn:Hc; [|discriminate].
  rewrite (digit_not_sign _ _ Hc), Hval, (digit_not_minus _ _ Hc).
  reflexivity.
Qed.

Lemma Atoi_Itoa_uint32 u : 0 <= u < 2 ^ 32 -> Atoi (Itoa u) = inl u.
Proof.
  intros Hu. destruct (Itoa_uint32 u Hu) as (Hd & Hlen & Hval).
  apply Atoi_digits; auto. lia.
Qed.

Lemma Split_digits b : all_digits b = true -> strings.Split b "," = [b].
Proof.
  induction b as [|c b IH]; simpl; [reflexivity|].
  destruct (digit_val c) as [d|] eqn:Hc; [|discriminate].
  intros Hb. rewrite (digit_not_comma _ _ Hc), (IH Hb). reflexivity.
Qed.

Lemma Split_field a b :
  all_digits a = true ->
  strings.Split (a +:+ String "," b) "," = a :: strings.Split b ",".
Proof.
  induction a as [|c a IH]; simpl; [reflexivity|].
  destruct (digit_val c) as [d|] eqn:Hc; [|discriminate].
  intros Ha. rewrite (digit_not_comma _ _ Hc), (IH Ha). reflexivity.
Qed.

Lemma digit_val_range c d : digit_val c = Some d -> 0 <= d <= 9.
Proof.
  unfold digit_val. destruct (Z.leb_spec 48 (Z.of_N (N_of_ascii c)));
    destruct (Z.leb_spec (Z.of_N (N_of_ascii c)) 57); simpl;
    intros [= <-]; lia.
Qed.

Lemma atoi_loop_ge s : forall m v, 0 <= m -> atoi_loop s m = Some v -> m <= v.
Proof.
  induction s as [|c r IH]; intros m v Hm; simpl.
  - intros [= <-]. lia.
  - destruct (digit_val c) as [d|] eqn:Hc; [|discriminate].
    pose proof (digit_val_range _ _ Hc). intros Hv.
    apply IH in Hv; lia.
Qed.

Lemma atoi_loop_bound s : forall m v,
  0 <= m -> atoi_loop s m = Some v ->
  v < (m + 1) * 10 ^ Z.of_nat (String.length s).
Proof.
  induction s as [|c r IH]; intros m v Hm; simpl String.length.
  - simpl. intros [= <-]. lia.
  - simpl atoi_loop. destruct (digit_val c) as [d|] eqn:Hc; [|discriminate].
    pose proof (digit_val_range _ _ Hc). intros Hv.
    apply IH in Hv; [|lia].
    rewrite Nat2Z.inj_succ, Z.pow_succ_r by lia.
    assert (0 < 10 ^ Z.of_nat (String.length r)) by (apply Z.pow_pos_nonneg; lia).
    nia.
Qed.

Lemma parse_uint_loop_spec s : forall n0 v,
  0 <= n0 <= max_uint64 ->
  parse_uint_loop s n0 = inl v <-> atoi_loop s n0 = Some v /\ v <= max_uint64.
Proof.
  induction s as [|c r IH]; intros n0 v Hn; simpl.
  - split; [intros [= <-]; split; [reflexivity | lia] | intros [[= <-] _]; reflexivity].
  - destruct (digit_val c) as [d|] eqn:Hc; [|split; [discriminate | intros [? _]; discriminate]].
    pose proof (digit_val_range _ _ Hc) as Hd.
    destruct (Z.leb_spec (max_uint64 / 10 + 1) n0) as [Hcut|Hcut].
    { split; [discriminate|]. intros [Hv Hle]. apply atoi_loop_ge in Hv; [|lia].
      unfold max_uint64 in *. exfalso.
      change (2 ^ 64 - 1) with 18446744073709551615 in *.
      change (18446744073709551615 / 10 + 1) with 1844674407370955162 in Hcut. lia. }
    destruct (Z.ltb_spec max_uint64 (n0 * 10 + d)) as [Hov|Hov].
    { split; [discriminate|]. intros [Hv Hle]. apply atoi_loop_ge in Hv; lia. }
    apply IH. lia.
Qed.

Lemma is_sign_minus c : Ascii.eqb c "-" = true -> is_sign c = true.
Proof. unfold is_sign. now intros ->. Qed.

Lemma ParseInt_spec s v :
  ParseInt s = inl v <->
  signed_decimal s = Some v /\ fits_int v.
Proof.
  unfold ParseInt, signed_decimal, fits_int, min_int, max_int.
  destruct s as [|c r]; [split; [discriminate | intros [? _]; discriminate]|].
  set (body := if is_sign c then r else String c r).
  assert (Hbody : forall un,
            parse_uint_loop body 0 = inl un <->
            atoi_loop body 0 = Some un /\ un <= max_uint64)
    by (intros un; apply parse_uint_loop_spec; unfold max_uint64; lia).
  assert (Hpos : forall un, atoi_loop body 0 = Some un -> 0 <= un)
    by (intros un Hun; apply atoi_loop_ge in Hun; lia).
  change (2 ^ 63) with 9223372036854775808 in *.
  unfold max_uint64 in Hbody.
  change (2 ^ 64 - 1) with 18446744073709551615 in Hbody.
  destruct (is_sign c) eqn:Hs.
  - subst body. destruct r as [|c' r'];
      [split; [discriminate | intros [? _]; discriminate]|].
    destruct (parse_uint_loop (String c' r') 0) as [un|e] eqn:Hp.
    + destruct (proj1 (Hbody un) eq_refl) as [Ha Hle]. rewrite Ha.
      pose proof (Hpos un Ha).
      destruct (Ascii.eqb c "-"); simpl;
        destruct (Z.leb_spec 9223372036854775808 un);
        destruct (Z.ltb_spec 9223372036854775808 un); simpl;
        (split; [intros [= <-]; (split; [reflexivity | lia])
                | intros [[= <-] ?]; (reflexivity || (exfalso; lia))]).
    + split; [discriminate|]. intros [Hv Hr].
      destruct (atoi_loop (String c' r') 0) as [n|] eqn:Ha; [|discriminate].
      pose proof (Hpos n eq_refl).
      assert (Hmax : n <= 18446744073709551615)
        by (destruct (Ascii.eqb c "-"); injection Hv as <-; lia).
      pose proof (proj2 (Hbody n) (conj eq_refl Hmax)). discriminate.
  - subst body.
    assert (Hneg : Ascii.eqb c "-" = false).
    { destruct (Ascii.eqb c "-") eqn:E; [|reflexivity].
      apply is_sign_minus in E. congruence. }
    rewrite Hneg.
    destruct (parse_uint_loop (String c r) 0) as [un|e] eqn:Hp.
    + destruct (proj1 (Hbody un) eq_refl) as [Ha Hle]. rewrite Ha.
      pose proof (Hpos un Ha). simpl.
      destruct (Z.leb_spec 9223372036854775808 un);
        (split; [intros [= <-]; (split; [reflexivity | lia])
                | intros [[= <-] ?]; (reflexivity || (exfalso; lia))]).
    + split; [discriminate|]. intros [Hv Hr].
      pose proof (Hpos v Hv).
      assert (Hmax : v <= 18446744073709551615) by lia.
      pose proof (proj2 (Hbody v) (conj Hv Hmax)). discriminate.
Qed.

(** strconv.Atoi accepts exactly the optionally signed decimal integers
    that fit the 64-bit int. *)
Lemma Atoi_accepts s v :
  Atoi s = inl v <->
  signed_decimal s = Some v /\ fits_int v.
Proof.
  unfold Atoi.
  destruct ((0 <? Z.of_nat (String.length s))
            && (Z.of_nat (String.length s) <? 19)) eqn:Hlen;
    [|apply ParseInt_spec].
  apply andb_prop in Hlen as [H0 H19].
  apply Z.ltb_lt in H0, H19.
  unfold signed_decimal, fits_int, min_int, max_int.
  change (2 ^ 63) with 9223372036854775808.
  destruct s as [|c r]; [simpl in H0; lia|].
  simpl String.length in H19.
  assert (Hb : forall t n, (String.length t <= 18)%nat ->
                 atoi_loop t 0 = Some n -> 0 <= n < 10 ^ 18).
  { intros t n Ht Hn. split; [apply atoi_loop_ge in Hn; lia|].
    apply atoi_loop_bound in Hn; [|lia].
    assert (10 ^ Z.of_nat (String.length t) <= 10 ^ 18)
      by (apply Z.pow_le_mono_r; lia).
    lia. }
  change (10 ^ 18) with 1000000000000000000 in Hb.
  destruct (is_sign c) eqn:Hs.
  - destruct r as [|c' r'];
      [split; [discriminate | intros [? _]; discriminate]|].
    destruct (atoi_loop (String c' r') 0) as [n|] eqn:Ha;
      [|split; [discriminate | intros [? _]; discriminate]].
    pose proof (Hb (String c' r') n
                  ltac:(cbn [String.length] in *; lia) Ha).
    destruct (Ascii.eqb c "-");
      (split; [intros [= <-]; (split; [reflexivity | lia])
              | intros [[= <-] _]; reflexivity]).
  - assert (Hneg : Ascii.eqb c "-" = false).
    { destruct (Ascii.eqb c "-") eqn:E; [|reflexivity].
      apply is_sign_minus in E. congruence. }
    rewrite Hneg.
    destruct (atoi_loop (String c r) 0) as [n|] eqn:Ha;
      [|split; [discriminate | intros [? _]; discriminate]].
    pose proof (Hb (String c r) n
                  ltac:(cbn [String.length] in *; lia) Ha).
    split; [intros [= <-]; (split; [reflexivity | lia])
           | intros [[= <-] _]; reflexivity].
Qed.

Lemma uint32_small u : 0 <= u < 2 ^ 32 -> uint32 u = u.
Proof. intros H. unfold uint32. apply Z.mod_small. exact H. Qed.

End Decimal.

(** ** Construction and session recovery *)

Section Recovery.
Context {MountConfig : Type}.
Variable newConnection :
  MountConfig -> Logger -> Logger -> option File ->
  Go (option (@Connection MountConfig) * option error).

Ltac open_GetConnection Hr :=
  unfold GetConnection, handoff_record in *; rewrite Hr;
  unfold bind, Getenv, ret; cbv beta;
  set (env := default EmptyString _) in *.

Lemma checkRecover_fields_spec fields : forall (gr : @Graceful MountConfig) w,
  checkRecover_fields gr fields w =
  (Ret (set_recoveredVer (recoveredVer gr ++ parsed_prefix fields) gr),
   set_logged (logged w ++ invalid_log (logger gr) fields) w).
Proof.
  induction fields as [|f r IH]; intros gr w; simpl.
  - destruct gr, w; unfold ret, set_recoveredVer, set_logged; simpl.
    now rewrite !app_nil_r.
  - destruct (strconv.Atoi f) as [v|e].
    + rewrite IH. destruct gr; unfold set_recoveredVer; simpl.
      now rewrite <- app_assoc.
    + destruct gr; unfold bind, Printf, ret, set_recoveredVer; simpl.
      now rewrite app_nil_r.
Qed.

(** C3 (as amended): NewGraceful always returns a controller.  With a
    non-empty handoff record it is marked recovered and keeps the fields
    parsed before the first one that is not an integer, which it logs;
    the number of fields is not checked; the timeout is 60 and no
    session exists yet. *)
Theorem NewGraceful_total (lg : Logger) (rd pn : string) (w : OS) :
  exists (gr : @Graceful MountConfig) w',
    NewGraceful lg rd pn w = (Ret gr, w') /\
    recovered gr = negb (String.eqb (handoff_record w) "") /\
    recoveredVer gr =
      (if String.eqb (handoff_record w) "" then []
       else parsed_prefix (strings.Split (handoff_record w) ",")) /\
    RestartTimeout gr = 60 /\ conn gr = None /\
    runDir gr = rd /\ progName gr = pn /\ restarting gr = false /\
    environ w' = environ w /\ files w' = files w /\
    logged w' = logged w ++
      (if String.eqb (handoff_record w) "" then []
       else (lg, LogRecovering (pid w) (handoff_record w))
            :: invalid_log lg (strings.Split (handoff_record w) ",")).
Proof.
  unfold NewGraceful, checkRecover, bind, Getenv, Getpid, Printf, ret,
    handoff_record.
  set (env := default EmptyString _).
  destruct (String.eqb env "") eqn:He.
  - eexists _, _. split; [reflexivity|]. simpl.
    rewrite app_nil_r. repeat split; reflexivity.
  - rewrite checkRecover_fields_spec. eexists _, _.
    split; [reflexivity|]. simpl.
    rewrite <- app_assoc. repeat split; reflexivity.
Qed.

Lemma GetConnection_recovered_ok nc (gr : @Graceful MountConfig)
    (cfg_ : MountConfig) (dl el : Logger) (dev_ : option File) (w : OS)
    v0 v1 major minor :
  recovered gr = true ->
  handoff_record w <> EmptyString ->
  strings.Split (handoff_record w) "," = [v0; v1] ->
  strconv.Atoi v0 = inl major -> strconv.Atoi v1 = inl minor ->
  GetConnection nc gr cfg_ dl el dev_ w
  = (Ret (set_conn
            (Some (recovered_conn cfg_ dl el dev_
                     (uint32 major) (uint32 minor))) gr,
          None), w).
Proof.
  intros Hr Hne Hs H0 H1. open_GetConnection Hr.
  destruct (String.eqb_spec env "") as [He|_]; [contradiction|].
  rewrite Hs, H0, H1. reflexivity.
Qed.

(** C4 (as amended): on a recovered controller GetConnection returns an
    error when the record is empty or absent, when it does not split
    into exactly two fields, or when a field is not an optionally signed
    decimal integer that fits the 64-bit int (which is what Atoi
    accepts); otherwise the session holds the two values converted to
    uint32 and an empty cancellation table, whatever the session
    constructor is; a fresh controller calls the session constructor. *)
Theorem GetConnection_spec (gr : @Graceful MountConfig)
    (cfg_ : MountConfig) (dl el : Logger) (dev_ : option File) (w : OS) :
  (recovered gr = true ->
     (handoff_record w = EmptyString \/
      length (strings.Split (handoff_record w) ",") <> 2%nat \/
      (exists v, v ∈ strings.Split (handoff_record w) "," /\
                 forall z, signed_decimal v = Some z -> ~ fits_int z)) ->
     exists gr' e,
       GetConnection newConnection gr cfg_ dl el dev_ w
       = (Ret (gr', Some e), w)) /\
  (recovered gr = true ->
     forall v0 v1 major minor,
       handoff_record w <> EmptyString ->
       strings.Split (handoff_record w) "," = [v0; v1] ->
       signed_decimal v0 = Some major -> fits_int major ->
       signed_decimal v1 = Some minor -> fits_int minor ->
       forall nc,
         GetConnection nc gr cfg_ dl el dev_ w
         = (Ret (set_conn
                   (Some (recovered_conn cfg_ dl el dev_
                            (uint32 major) (uint32 minor))) gr,
                 None), w)) /\
  (recovered gr = false ->
     GetConnection newConnection gr cfg_ dl el dev_ w
     = match newConnection cfg_ dl el dev_ w with
       | (Ret r, w') => (Ret (set_conn (fst r) gr, snd r), w')
       | (Panic msg, w') => (Panic msg, w')
       end).
Proof.
  split; [|split].
  - intros Hr Hbad. open_GetConnection Hr.
    destruct (String.eqb_spec env "") as [He|Hne]; [eauto|].
    destruct (strings.Split env ",") as [|v0 [|v1 [|v2 r]]]
      eqn:Hs; eauto.
    destruct Hbad as [Hempty|[Hlen|(v & Hin & Hv)]];
      [contradiction | simpl in Hlen; lia |].
    destruct (strconv.Atoi v0) as [major|e0] eqn:H0; [|eauto].
    destruct (strconv.Atoi v1) as [minor|e1] eqn:H1; [|eauto].
    apply Atoi_accepts in H0 as [H0 F0]. apply Atoi_accepts in H1 as [H1 F1].
    apply elem_of_cons in Hin as [->|Hin]; [destruct (Hv _ H0 F0)|].
    apply elem_of_cons in Hin as [->|Hin]; [destruct (Hv _ H1 F1)|].
    inversion Hin.
  - intros Hr v0 v1 major minor Hne Hs H0 F0 H1 F1 nc.
    apply (GetConnection_recovered_ok nc gr cfg_ dl el dev_ w v0 v1);
      auto; now apply Atoi_accepts.
  - intros Hr. unfold GetConnection, bind, ret. rewrite Hr.
    destruct (newConnection cfg_ dl el dev_ w) as [[r|msg] w'];
      reflexivity.
Qed.

(** C10: on a recovered start with a two-field record, GetConnection has
    already stored a connection with the configuration, the device, an
    empty cancellation table and version 0.0 when Atoi rejects a field;
    it returns the error with that connection left in the controller. *)
Theorem GetConnection_error_leaves_conn (gr : @Graceful MountConfig)
    (cfg_ : MountConfig) (dl el : Logger) (dev_ : option File) (w : OS)
    (v0 v1 : string) :
  recovered gr = true ->
  handoff_record w <> EmptyString ->
  strings.Split (handoff_record w) "," = [v0; v1] ->
  (exists e, strconv.Atoi v0 = inr e) \/
  (exists e, strconv.Atoi v1 = inr e) ->
  exists e gr',
    GetConnection newConnection gr cfg_ dl el dev_ w
    = (Ret (gr', Some e), w) /\
    gr' = set_conn (Some (recovered_conn cfg_ dl el dev_ 0 0)) gr /\
    conn gr' = Some (recovered_conn cfg_ dl el dev_ 0 0) /\
    (conn gr = None -> gr' <> gr).
Proof.
  intros Hr Hne Hs Hbad. open_GetConnection Hr.
  destruct (String.eqb_spec env "") as [He|_]; [contradiction|].
  rewrite Hs.
  assert (Hneq : conn gr = None ->
                 set_conn (Some (recovered_conn cfg_ dl el dev_ 0 0)) gr
                 <> gr).
  { intros Hc Heq. apply (f_equal conn) in Heq. simpl in Heq.
    congruence. }
  destruct (strconv.Atoi v0) as [major|e0] eqn:H0.
  - destruct (strconv.Atoi v1) as [minor|e1] eqn:H1.
    + destruct Hbad as [[e He]|[e He]]; congruence.
    + eexists _, _. repeat split; auto.
  - eexists _, _. repeat split; auto.
Qed.

(** C7: the record that Restart writes for a session with version
    (major, minor), both 32-bit unsigned, is read back by GetConnection
    in the recovered process as exactly (major, minor). *)
Theorem handoff_roundtrip (c : @Connection MountConfig)
    (gr : @Graceful MountConfig) (cfg_ : MountConfig) (dl el : Logger)
    (dev_ : option File) (w : OS) :
  0 <= Major (protocol c) < 2 ^ 32 ->
  0 <= Minor (protocol c) < 2 ^ 32 ->
  recovered gr = true ->
  environ w !! "_GRACEFUL_RESTART"%string = Some (ver_str c) ->
  ver_str c = strconv.Itoa (Major (protocol c)) +:+ ","
              +:+ strconv.Itoa (Minor (protocol c)) /\
  strings.Split (ver_str c) "," =
    [strconv.Itoa (Major (protocol c)); strconv.Itoa (Minor (protocol c))] /\
  strconv.Atoi (strconv.Itoa (Major (protocol c)))
    = inl (Major (protocol c)) /\
  strconv.Atoi (strconv.Itoa (Minor (protocol c)))
    = inl (Minor (protocol c)) /\
  GetConnection newConnection gr cfg_ dl el dev_ w
  = (Ret (set_conn
            (Some (recovered_conn cfg_ dl el dev_
                     (Major (protocol c)) (Minor (protocol c)))) gr,
          None), w).
Proof.
  intros HM Hm Hr Henv.
  destruct (Itoa_uint32 _ HM) as (HdM & HlM & _).
  destruct (Itoa_uint32 _ Hm) as (Hdm & Hlm & _).
  assert (Hv : ver_str c = strconv.Itoa (Major (protocol c)) +:+ ","
               +:+ strconv.Itoa (Minor (protocol c))) by reflexivity.
  assert (Hs : strings.Split (ver_str c) "," =
               [strconv.Itoa (Major (protocol c));
                strconv.Itoa (Minor (protocol c))]).
  { rewrite Hv.
    change ("," +:+ strconv.Itoa (Minor (protocol c)))
      with (String "," (strconv.Itoa (Minor (protocol c)))).
    rewrite Split_field by exact HdM. now rewrite Split_digits. }
  repeat split; auto using Atoi_Itoa_uint32.
  rewrite (GetConnection_recovered_ok newConnection gr cfg_ dl el dev_ w
             (strconv.Itoa (Major (protocol c)))
             (strconv.Itoa (Minor (protocol c)))
             (Major (protocol c)) (Minor (protocol c)));
    auto using Atoi_Itoa_uint32.
  - now rewrite !uint32_small.
  - unfold handoff_record. rewrite Henv. simpl. rewrite Hv.
    destruct (strconv.Itoa (Major (protocol c))); [simpl in HlM; lia|].
    discriminate.
  - unfold handoff_record. rewrite Henv. exact Hs.
Qed.

End Recovery.

(** ** Restart *)

Section RestartProperties.
Context {MountConfig : Type}.
Variable filepath_Join : string -> string -> string.
Variable os_FindProcess : Z -> Go (option error).

Lemma Stat_pure path w : exists err, Stat path w = (Ret err, w).
Proof.
  unfold Stat. destruct (fault w (SysStat path)); [eauto|].
  destruct (files w !! path); eauto.
Qed.

Lemma fault_tick w : fault (tick w) = fault w.
Proof. reflexivity. Qed.

Lemma fault_ticks k : forall w, fault (ticks k w) = fault w.
Proof. induction k as [|k IH]; intros w; simpl; [|rewrite IH]; reflexivity. Qed.

Lemma now_ticks k : forall w, now (ticks k w) = now w + Z.of_nat k.
Proof.
  induction k as [|k IH]; intros w; simpl ticks; [lia|].
  rewrite IH. simpl. lia.
Qed.

Lemma ticks_S k w : ticks (S k) w = ticks k (tick w).
Proof. reflexivity. Qed.

(** The loop returns at the first iteration whose test holds. *)
Lemma Restart_wait_seen (gr : @Graceful MountConfig) p path :
  forall n k w,
    (k < n)%nat ->
    (forall j, (j < k)%nat -> marker_seen path (ticks j w) = false) ->
    marker_seen path (ticks k w) = true ->
    Restart_wait os_FindProcess gr p path n w
    = (Ret (p, None), observed gr p path (ticks k w)).
Proof.
  induction n as [|n IH]; intros k w Hk Hbefore Hat; [lia|].
  simpl Restart_wait. unfold bind at 1.
  destruct k as [|k].
  - simpl in Hat. unfold marker_seen in Hat.
    destruct (Stat_pure path w) as [err Hst]. rewrite Hst in *.
    rewrite Hat. unfold bind, Getpid, Printf, ret, observed. simpl.
    destruct (Remove path w) as [[r|msg] w1] eqn:Hrm; [reflexivity|].
    unfold Remove in Hrm.
    destruct (fault w (SysRemove path)); [discriminate|].
    destruct (files w !! path); discriminate.
  - pose proof (Hbefore O ltac:(lia)) as H0. simpl in H0.
    unfold marker_seen in H0.
    destruct (Stat_pure path w) as [err Hst]. rewrite Hst in *.
    rewrite H0. unfold bind at 1, Sleep. simpl negb. cbv iota.
    apply (IH k (tick w)); [lia | | exact Hat].
    intros j Hj. apply (Hbefore (S j)). lia.
Qed.

(** When no iteration's test holds, the loop sleeps [n] times and the
    process lookup decides. *)
Lemma Restart_wait_unseen (gr : @Graceful MountConfig) p path :
  forall n w,
    (forall j, (j < n)%nat -> marker_seen path (ticks j w) = false) ->
    Restart_wait os_FindProcess gr p path n w
    = Restart_timeout os_FindProcess p (ticks n w).
Proof.
  induction n as [|n IH]; intros w Hnone; [reflexivity|].
  simpl Restart_wait. unfold bind at 1.
  pose proof (Hnone O ltac:(lia)) as H0. simpl in H0.
  unfold marker_seen in H0.
  destruct (Stat_pure path w) as [err Hst]. rewrite Hst in *.
  rewrite H0. unfold bind at 1, Sleep. simpl negb. cbv iota.
  apply (IH (tick w)). intros j Hj. apply (Hnone (S j)). lia.
Qed.

(** Restart up to the loop, when the child starts. *)
Lemma Restart_launched (gr : @Graceful MountConfig) c w :
  conn gr = Some c ->
  fault w (SysExec (arg0 w)) = None ->
  Restart filepath_Join os_FindProcess gr w
  = Restart_wait os_FindProcess gr (next_pid w)
      (getChildPath filepath_Join gr (next_pid w))
      (Z.to_nat (RestartTimeout gr)) (launched gr c w).
Proof.
  intros Hc Hf. unfold Restart. rewrite Hc.
  unfold bind, Setenv, Printf, Start. simpl. rewrite Hf. reflexivity.
Qed.

(** Restart when the child cannot be started: RestartFailed at once; the
    record is in the environment and two lines are logged, nothing else
    has changed. *)
Lemma Restart_launch_failure (gr : @Graceful MountConfig) c w e :
  conn gr = Some c ->
  fault w (SysExec (arg0 w)) = Some e ->
  exists w',
    Restart filepath_Join os_FindProcess gr w
    = (Ret (0, Some ErrGRestartFailed), w') /\
    files w' = files w /\ procs w' = procs w /\ now w' = now w /\
    spawned w' = spawned w /\
    environ w' = <["_GRACEFUL_RESTART"%string := ver_str c]> (environ w).
Proof.
  intros Hc Hf. unfold Restart. rewrite Hc.
  unfold bind, Setenv, Printf, Start, ret. simpl. rewrite Hf.
  eexists. split; [reflexivity|]. repeat split.
Qed.

(** After a timeout the result follows the error of os.FindProcess. *)
Lemma Restart_timeout_spec p w :
  match os_FindProcess p w with
  | (Ret None, w') =>
      Restart_timeout os_FindProcess p w
      = (Ret (p, Some ErrGRestartChildNotReady), w')
  | (Ret (Some _), w') =>
      Restart_timeout os_FindProcess p w
      = (Ret (0, Some ErrGRestartFailed), w')
  | (Panic msg, w') =>
      Restart_timeout os_FindProcess p w = (Panic msg, w')
  end.
Proof.
  unfold Restart_timeout, bind.
  destruct (os_FindProcess p w) as [[[err|]|msg] w']; reflexivity.
Qed.

Lemma NewGraceful_RestartTimeout lg rd pn w0 :
  exists (gr0 : @Graceful MountConfig) w0',
    NewGraceful lg rd pn w0 = (Ret gr0, w0') /\ RestartTimeout gr0 = 60.
Proof.
  unfold NewGraceful, checkRecover, bind, Getenv, Getpid, Printf, ret.
  destruct (String.eqb _ "").
  - eexists _, _. split; reflexivity.
  - rewrite checkRecover_fields_spec. eexists _, _. split; reflexivity.
Qed.

Lemma Remove_files path w :
  (fault w (SysRemove path) = None ->
   files (snd (Remove path w)) !! path = None) /\
  (fault w (SysRemove path) <> None ->
   files (snd (Remove path w)) = files w) /\
  (files w !! path = None -> files (snd (Remove path w)) = files w).
Proof.
  unfold Remove. destruct (fault w (SysRemove path)) as [e|];
    destruct (files w !! path) as [b|] eqn:Hf; simpl;
    repeat split; try congruence; intros _.
  apply lookup_delete_eq.
Qed.

(** When the timeout elapses, Restart has slept RestartTimeout times and
    ends with the process lookup. *)
Lemma Restart_timed_out (gr : @Graceful MountConfig) c w :
  conn gr = Some c ->
  fault w (SysExec (arg0 w)) = None ->
  (forall j, (j < Z.to_nat (RestartTimeout gr))%nat ->
     marker_seen (getChildPath filepath_Join gr (next_pid w))
       (ticks j (launched gr c w)) = false) ->
  Restart filepath_Join os_FindProcess gr w
  = Restart_timeout os_FindProcess (next_pid w)
      (ticks (Z.to_nat (RestartTimeout gr)) (launched gr c w)).
Proof.
  intros Hc Hf Hnone.
  rewrite (Restart_launched gr c w Hc Hf).
  now apply Restart_wait_unseen.
Qed.

(** C2 (as amended): once the child is started, Restart tests the marker
    path once per second, at most RestartTimeout times (60 as set by
    NewGraceful); at the first test at which os.Stat reports anything but
    "does not exist", after [k] seconds, it calls Remove on the path and
    returns (childPid, nil), and the marker no longer exists afterwards
    when that removal does not fail; when no test does, it gives up after
    RestartTimeout seconds. *)
Theorem Restart_first_observation (gr : @Graceful MountConfig) c w :
  conn gr = Some c ->
  fault w (SysExec (arg0 w)) = None ->
  (forall k,
     (k < Z.to_nat (RestartTimeout gr))%nat ->
     (forall j, (j < k)%nat ->
        marker_seen (getChildPath filepath_Join gr (next_pid w))
          (ticks j (launched gr c w)) = false) ->
     marker_seen (getChildPath filepath_Join gr (next_pid w))
       (ticks k (launched gr c w)) = true ->
     exists w',
       Restart filepath_Join os_FindProcess gr w
       = (Ret (next_pid w, None), w') /\
       now w' = now w + Z.of_nat k /\
       files w' =
         files (snd (Remove (getChildPath filepath_Join gr (next_pid w))
                       (ticks k (launched gr c w)))) /\
       (fault w (SysRemove (getChildPath filepath_Join gr (next_pid w)))
          = None ->
        files w' !! getChildPath filepath_Join gr (next_pid w) = None)) /\
  ((forall j, (j < Z.to_nat (RestartTimeout gr))%nat ->
      marker_seen (getChildPath filepath_Join gr (next_pid w))
        (ticks j (launched gr c w)) = false) ->
   Restart filepath_Join os_FindProcess gr w
   = Restart_timeout os_FindProcess (next_pid w)
       (ticks (Z.to_nat (RestartTimeout gr)) (launched gr c w)) /\
   now (ticks (Z.to_nat (RestartTimeout gr)) (launched gr c w))
   = now w + Z.max 0 (RestartTimeout gr)) /\
  (forall lg rd pn w0,
     exists (gr0 : @Graceful MountConfig) w0',
       NewGraceful lg rd pn w0 = (Ret gr0, w0') /\
       RestartTimeout gr0 = 60).
Proof.
  intros Hc Hf. split; [|split].
  - intros k Hk Hbefore Hat.
    rewrite (Restart_launched gr c w Hc Hf).
    rewrite (Restart_wait_seen gr _ _ _ k _ Hk Hbefore Hat).
    eexists. split; [reflexivity|].
    split; [|split].
    + unfold observed. simpl now.
      assert (Hn : forall path v, now (snd (Remove path v)) = now v).
      { intros path v. unfold Remove.
        destruct (fault v (SysRemove path)); [reflexivity|].
        destruct (files v !! path); reflexivity. }
      rewrite Hn, now_ticks. reflexivity.
    + reflexivity.
    + intros Hrm. unfold observed. simpl files.
      destruct (Remove_files (getChildPath filepath_Join gr (next_pid w))
                  (ticks k (launched gr c w))) as (H1 & _ & _).
      apply H1. rewrite fault_ticks. exact Hrm.
  - intros Hnone. split; [now apply Restart_timed_out|].
    rewrite now_ticks. simpl now. lia.
  - apply NewGraceful_RestartTimeout.
Qed.

(** C9: in the loop of Restart every outcome of os.Stat other than a
    does-not-exist error counts as the marker being there: Remove is
    called, its error is dropped, and (childPid, nil) is returned.  So
    a Stat that fails otherwise, such as for lack of permission, gives
    success with no marker present and nothing removed; and Restart as a
    whole then succeeds at its first test. *)
Theorem Restart_wait_stat_outcome (gr : @Graceful MountConfig) p path n w :
  (forall err,
     fst (Stat path w) = Ret err -> IsNotExist err = false ->
     Restart_wait os_FindProcess gr p path (S n) w
     = (Ret (p, None), observed gr p path w)) /\
  (forall e,
     fault w (SysStat path) = Some e -> e <> ENOENT ->
     Restart_wait os_FindProcess gr p path (S n) w
     = (Ret (p, None), observed gr p path w) /\
     (files w !! path = None -> files (observed gr p path w) = files w) /\
     (fault w (SysRemove path) <> None ->
      files (observed gr p path w) = files w)) /\
  (forall c e,
     conn gr = Some c ->
     fault w (SysExec (arg0 w)) = None ->
     0 < RestartTimeout gr ->
     fault w (SysStat (getChildPath filepath_Join gr (next_pid w))) = Some e ->
     e <> ENOENT ->
     Restart filepath_Join os_FindProcess gr w
     = (Ret (next_pid w, None),
        observed gr (next_pid w)
          (getChildPath filepath_Join gr (next_pid w)) (launched gr c w))).
Proof.
  assert (Hgen : forall q pth m v err,
    fst (Stat pth v) = Ret err -> IsNotExist err = false ->
    Restart_wait os_FindProcess gr q pth (S m) v
    = (Ret (q, None), observed gr q pth v)).
  { intros q pth m v err Hst Hne.
    apply (Restart_wait_seen gr q pth (S m) O v); [lia | intros; lia |].
    simpl. unfold marker_seen.
    destruct (Stat pth v) as [[r|msg] w1]; simpl in Hst;
      [|discriminate].
    injection Hst as ->. now rewrite Hne. }
  assert (Hdenied : forall pth v e,
    fault v (SysStat pth) = Some e -> e <> ENOENT ->
    fst (Stat pth v) = Ret (Some (ErrPath "stat" pth e)) /\
    IsNotExist (Some (ErrPath "stat" pth e)) = false).
  { intros pth v e Hf He. split.
    - unfold Stat. now rewrite Hf.
    - destruct e; [contradiction | reflexivity | reflexivity]. }
  split; [apply Hgen | split].
  - intros e Hf He. destruct (Hdenied path w e Hf He) as [Hst Hne].
    split; [exact (Hgen p path n w _ Hst Hne) | split].
    + intros Hnone. unfold observed. simpl files.
      destruct (Remove_files path w) as (_ & _ & H3). exact (H3 Hnone).
    + intros Hrm. unfold observed. simpl files.
      destruct (Remove_files path w) as (_ & H2 & _). exact (H2 Hrm).
  - intros c e Hc Hx Ht Hf He.
    rewrite (Restart_launched gr c w Hc Hx).
    destruct (Z.to_nat (RestartTimeout gr)) as [|m] eqn:Hm; [lia|].
    destruct (Hdenied (getChildPath filepath_Join gr (next_pid w))
                (launched gr c w) e Hf He) as [Hst Hne].
    exact (Hgen _ _ m _ _ Hst Hne).
Qed.

End RestartProperties.

(** ** The pid file *)

Section PidFile.
Variable filepath_Join : string -> string -> string.

Lemma truncate_write_exact (data old : list ascii) :
  truncate_to (Z.to_nat (Z.of_nat (length data)))
    (write_at (Z.to_nat 0) data old) = data.
Proof.
  rewrite Nat2Z.id. unfold truncate_to, write_at. simpl.
  rewrite <- app_assoc. apply take_app_length.
Qed.

Ltac split_faults w :=
  repeat match goal with
         | |- context [fault w ?sc] =>
             let H := fresh "Hfault" in
             destruct (fault w sc) eqn:H; simpl
         end.

(** C8: when WritePidFile returns nil, the file at
    <runDir>/<progName>.pid holds exactly the decimal digits of the pid,
    whatever it held before, and no other file has changed; and it does
    return nil when none of open, seek, write, truncate and sync fails. *)
Theorem WritePidFile_exact (rd pn : string) (w : OS) :
  (forall w',
     WritePidFile filepath_Join rd pn w = (Ret None, w') ->
     files w' !! filepath_Join rd (pn +:+ ".pid")
     = Some (list_ascii_of_string (strconv.Itoa (pid w))) /\
     (forall path, path <> filepath_Join rd (pn +:+ ".pid") ->
                   files w' !! path = files w !! path)) /\
  ((forall sc, fault w sc = None) ->
   exists w', WritePidFile filepath_Join rd pn w = (Ret None, w')).
Proof.
  unfold WritePidFile, bind, OpenFile, Seek, Getpid, Fprint, Truncate,
    Sync, ret.
  set (path := filepath_Join rd (pn +:+ ".pid")).
  split.
  - intros w'. simpl. split_faults w; try discriminate.
    destruct (files w !! path) as [old|] eqn:Hold; simpl;
      split_faults w; try discriminate;
      intros [= <-]; simpl.
    + rewrite lookup_insert_eq. simpl. rewrite lookup_insert_eq.
      split; [f_equal; apply truncate_write_exact|].
      intros p Hp. now rewrite !lookup_insert_ne by congruence.
    + rewrite lookup_insert_eq. simpl. rewrite lookup_insert_eq.
      split; [f_equal; apply truncate_write_exact|].
      intros p Hp. now rewrite !lookup_insert_ne by congruence.
  - intros Hnone. simpl. rewrite Hnone.
    destruct (files w !! path) as [old|] eqn:Hold;
      repeat (cbn [fault set_files name offset]; rewrite Hnone); eauto.
Qed.

End PidFile.

(** ** The watch tasks *)

Section WatchProperties.
Context {MountConfig : Type}.
Implicit Types (s : @Watch MountConfig) (gr : @Graceful MountConfig).



Lemma lookup_insert_task (l : list Task) i j t t' :
  l !! i = Some t -> <[i := t']> l !! j = if decide (i = j) then Some t' else l !! j.
Proof.
  intros Hi. destruct (decide (i = j)) as [->|Hne].
  - apply list_lookup_insert_eq. eapply lookup_lt_Some; eauto.
  - now apply list_lookup_insert_ne.
Qed.

Lemma received_insert (l : list Task) : forall i t t',
  l !! i = Some t ->
  (received (<[i := t']> l) + is_received t
   = received l + is_received t')%nat.
Proof.
  induction l as [|x l IH]; intros i t t' Hi; [discriminate|].
  destruct i as [|i]; simpl in *.
  - injection Hi as ->. lia.
  - specialize (IH i t t' Hi). lia.
Qed.

Lemma received_replicate n : received (replicate n Waiting) = 0%nat.
Proof. induction n as [|n IH]; simpl; [reflexivity | exact IH]. Qed.



Lemma restarting_deliver sig gr : restarting (deliver sig gr) = restarting gr.
Proof. unfold deliver. destruct (_ <? _)%nat; reflexivity. Qed.

Ltac step_cases Hstep :=
  unfold watch_step in Hstep;
  repeat match type of Hstep with
         | context [match ?x with _ => _ end] =>
             let E := fresh "E" in destruct x eqn:E; try discriminate
         end;
  injection Hstep as <-.













Lemma exited_step i l s s' :
  tasks s !! i = Some Exited -> watch_step l s = Some s' ->
  tasks s' !! i = Some Exited /\ by_task i l = false /\
  (invoked s' = invoked s \/ exists j, j <> i /\ l = Invoke j).
Proof.
  intros Hi Hstep.
  destruct l as [sig|j|j|j|j err]; step_cases Hstep; simpl; auto.
  all: match goal with
       | E : tasks _ !! _ = Some ?t |- context [<[_ := ?t']> _] =>
           rewrite (lookup_insert_task _ _ i _ t' E)
       end.
  all: destruct (decide (j = i)) as [->|Hne]; [congruence|].
  all: repeat split; auto.
  all: try (apply Nat.eqb_neq; congruence).
  right. eauto.
Qed.

Lemma exited_run i tr : forall s s',
  tasks s !! i = Some Exited -> watch_run tr s = Some s' ->
  tasks s' !! i = Some Exited /\
  forallb (fun l => negb (by_task i l)) tr = true.
Proof.
  induction tr as [|l tr IH]; intros s s' Hi Hrun; simpl in *.
  - injection Hrun as <-. auto.
  - destruct (watch_step l s) as [s1|] eqn:Hstep; [|discriminate].
    destruct (exited_step i l s s1 Hi Hstep) as (Hi1 & Hl & _).
    destruct (IH s1 s' Hi1 Hrun) as [Hi' Hall].
    rewrite Hl, Hall. auto.
Qed.

(** C6: a task that is in the callback can return from it with either
    result.  When the callback returns nil the task has returned for
    good: the flag is left as it is, the task stays exited and takes no
    further step, so it receives no further signal.  When the callback
    returns an error the flag is cleared and the task waits again, and
    the next signal makes it call the callback once more. *)
Theorem watch_continuation (i : nat) s :
  tasks s !! i = Some InCallback ->
  (exists s', watch_step (Return i None) s = Some s' /\
     tasks s' !! i = Some Exited /\
     restarting (ctl s') = restarting (ctl s) /\
     invoked s' = invoked s /\
     forall tr s'', watch_run tr s' = Some s'' ->
       tasks s'' !! i = Some Exited /\
       forallb (fun l => negb (by_task i l)) tr = true) /\
  (forall e, exists s',
     watch_step (Return i (Some e)) s = Some s' /\
     restarting (ctl s') = false /\
     tasks s' !! i = Some Waiting /\
     invoked s' = invoked s /\
     forall sig, exists s'',
       watch_run [Deliver sig; Receive i; Invoke i] s' = Some s'' /\
       invoked s'' = S (invoked s') /\
       tasks s'' !! i = Some InCallback /\
       restarting (ctl s'') = true).
Proof.
  intros Hin.
  assert (Hlt : (i < length (tasks s))%nat)
    by (eapply lookup_lt_Some; eauto).
  split.
  - unfold watch_step. rewrite Hin. eexists. split; [reflexivity|].
    assert (Hi : tasks {| ctl := ctl s; tasks := <[i := Exited]> (tasks s);
                          invoked := invoked s |} !! i = Some Exited).
    { simpl. now apply list_lookup_insert_eq. }
    split; [exact Hi|]. split; [reflexivity|]. split; [reflexivity|].
    intros tr s'' Hrun.
    exact (exited_run i tr _ _ Hi Hrun).
  - intros e. unfold watch_step at 1. rewrite Hin.
    eexists. split; [reflexivity|]. simpl.
    repeat split; [now apply list_lookup_insert_eq|].
    intros sig. unfold watch_run, watch_step. simpl.
    rewrite list_lookup_insert_eq by exact Hlt.
    destruct (restartNoti (deliver sig (set_restarting false (ctl s))))
      as [|x rest] eqn:Hch.
    { unfold deliver in Hch. simpl in Hch.
      destruct (restartNoti (ctl s)) as [|y r] eqn:Hn; simpl in Hch;
        [discriminate | congruence]. }
    simpl. rewrite list_lookup_insert_eq
      by (rewrite length_insert; exact Hlt).
    rewrite restarting_deliver. simpl.
    eexists. split; [reflexivity|]. simpl.
    repeat split.
    apply list_lookup_insert_eq. rewrite !length_insert. exact Hlt.
Qed.

End WatchProperties.

(** ** The theorems at concrete inputs *)

Example Atoi_731 : strconv.Atoi "731" = inl 731.
Proof. reflexivity. Qed.

Example Atoi_neg : strconv.Atoi "-1" = inl (-1).
Proof. reflexivity. Qed.

Example Atoi_big : strconv.Atoi "9223372036854775808" = inr strconv.ErrRange.
Proof. vm_compute. reflexivity. Qed.

Example Atoi_max : strconv.Atoi "9223372036854775807" = inl strconv.max_int.
Proof. vm_compute. reflexivity. Qed.

Example Atoi_min : strconv.Atoi "-9223372036854775808" = inl strconv.min_int.
Proof. vm_compute. reflexivity. Qed.

Example Atoi_bad : strconv.Atoi "3x" = inr strconv.ErrSyntax.
Proof. reflexivity. Qed.

Example Atoi_empty : strconv.Atoi "" = inr strconv.ErrSyntax.
Proof. reflexivity. Qed.

Example Itoa_ex : strconv.Itoa 4294967295 = "4294967295"%string.
Proof. vm_compute. reflexivity. Qed.

Example Itoa_zero : strconv.Itoa 0 = "0"%string.
Proof. reflexivity. Qed.

Example Split_ex : strings.Split "7,31" "," = ["7"; "31"]%string.
Proof. reflexivity. Qed.

Example Split_three : strings.Split ",a," "," = [""; "a"; ""]%string.
Proof. reflexivity. Qed.

(** C1: on Unix, where os.FindProcess never fails, a child that has left
    without writing its marker is reported as RestartChildNotReady after
    the 60 seconds, not as RestartFailed. *)
Theorem Restart_child_gone_not_ready :
  fst (Restart plain_join unix_FindProcess serving_ctl
         (mk_world no_fault child_exits))
  = Ret (101, Some ErrGRestartChildNotReady) /\
  procs (snd (Restart plain_join unix_FindProcess serving_ctl
                (mk_world no_fault child_exits))) = {[ 100 ]} /\
  now (snd (Restart plain_join unix_FindProcess serving_ctl
              (mk_world no_fault child_exits))) = 60.
Proof.
  repeat split; vm_compute; reflexivity.
Qed.

(** On Unix the timeout never yields RestartFailed. *)
Lemma Restart_unix_timeout {MountConfig : Type}
    (filepath_Join : string -> string -> string)
    (gr : @Graceful MountConfig) c w :
  conn gr = Some c ->
  fault w (SysExec (arg0 w)) = None ->
  (forall j, (j < Z.to_nat (RestartTimeout gr))%nat ->
     marker_seen (getChildPath filepath_Join gr (next_pid w))
       (ticks j (launched gr c w)) = false) ->
  Restart filepath_Join unix_FindProcess gr w
  = (Ret (next_pid w, Some ErrGRestartChildNotReady),
     ticks (Z.to_nat (RestartTimeout gr)) (launched gr c w)).
Proof.
  intros Hc Hf Hnone.
  now rewrite (Restart_timed_out filepath_Join unix_FindProcess gr c w).
Qed.

(** The same run with a lookup that consults the process table ends in
    RestartFailed. *)
Example Restart_child_gone_table_lookup :
  fst (Restart plain_join table_FindProcess serving_ctl
         (mk_world no_fault child_exits))
  = Ret (0, Some ErrGRestartFailed).
Proof. vm_compute. reflexivity. Qed.

(** A child that stays without writing its marker: RestartChildNotReady. *)
Example Restart_child_alive_not_ready :
  fst (Restart plain_join unix_FindProcess serving_ctl world0)
  = Ret (101, Some ErrGRestartChildNotReady) /\
  procs (snd (Restart plain_join unix_FindProcess serving_ctl world0))
  = {[ 100; 101 ]}.
Proof. split; vm_compute; reflexivity. Qed.

(** The executable cannot be started: RestartFailed, no child, no wait. *)
Example Restart_exec_denied :
  fst (Restart plain_join unix_FindProcess serving_ctl
         (mk_world exec_denied quiet))
  = Ret (0, Some ErrGRestartFailed) /\
  procs (snd (Restart plain_join unix_FindProcess serving_ctl
                (mk_world exec_denied quiet))) = {[ 100 ]} /\
  now (snd (Restart plain_join unix_FindProcess serving_ctl
              (mk_world exec_denied quiet))) = 0.
Proof. repeat split; vm_compute; reflexivity. Qed.

(** Restart without a session: gr.conn is nil. *)
Example Restart_without_session :
  fst (Restart plain_join unix_FindProcess fresh_ctl world0)
  = Panic "invalid memory address or nil pointer dereference".
Proof. reflexivity. Qed.

(** C2, counterexample: the marker is there at the second test, its
    removal is refused, Restart returns (101, nil) and the marker still
    exists. *)
Lemma Restart_success_marker_remains :
  fst (Restart plain_join unix_FindProcess serving_ctl
         (mk_world remove_denied (child_ready_at 0)))
  = Ret (101, None) /\
  files (snd (Restart plain_join unix_FindProcess serving_ctl
                (mk_world remove_denied (child_ready_at 0))))
    !! getChildPath plain_join serving_ctl 101 = Some [].
Proof. split; vm_compute; reflexivity. Qed.

Lemma Restart_first_observation_witness :
  exists w',
    Restart plain_join unix_FindProcess serving_ctl
      (mk_world no_fault (child_ready_at 1)) = (Ret (101, None), w') /\
    now w' = 2 /\
    files w' !! marker_101 = None.
Proof.
  destruct (Restart_first_observation plain_join unix_FindProcess
              serving_ctl session_7_31
              (mk_world no_fault (child_ready_at 1)) eq_refl eq_refl)
    as (Hseen & _ & _).
  destruct (Hseen 2%nat) as (w' & Hres & Hnow & _ & Hgone).
  - apply Nat.ltb_lt. reflexivity.
  - intros j Hj. destruct j as [|[|j]];
      [vm_compute; reflexivity | vm_compute; reflexivity | lia].
  - vm_compute. reflexivity.
  - exists w'. split; [exact Hres|]. split; [exact Hnow|].
    apply Hgone. reflexivity.
Defined.

(** C3, counterexample: records with a non-numeric field or with one field
    only are malformed, and NewGraceful returns a recovered controller for
    them. *)
Lemma NewGraceful_accepts_malformed :
  well_formed_record "7,x" = false /\
  fst (NewGraceful "debug" "/run" "qfs-fuse" (with_record "7,x"))
  = Ret (recovered_ctl [7]) /\
  well_formed_record "7" = false /\
  fst (NewGraceful "debug" "/run" "qfs-fuse" (with_record "7"))
  = Ret (recovered_ctl [7]).
Proof. repeat split; vm_compute; reflexivity. Qed.

(** Scenarios A and B of construction. *)
Example NewGraceful_fresh :
  fst (NewGraceful "debug" "/run" "qfs-fuse" world0) = Ret fresh_ctl.
Proof. vm_compute. reflexivity. Qed.

Example NewGraceful_recovered :
  fst (NewGraceful "debug" "/run" "qfs-fuse" (with_record "7,31"))
  = Ret (recovered_ctl [7; 31]).
Proof. vm_compute. reflexivity. Qed.

(** C4, counterexample: "-1" is no non-negative integer, yet the record
    "-1,2" is accepted and the session gets major version 4294967295; and
    the well-formed record "4294967296,0" gives major version 0. *)
Lemma GetConnection_accepts_negative :
  well_formed_record "-1,2" = false /\
  GetConnection no_handshake (recovered_ctl [-1; 2]) tt "debug" "error"
    (Some fuse_dev) (with_record "-1,2")
  = (Ret (set_conn
            (Some (recovered_conn tt "debug" "error" (Some fuse_dev)
                     4294967295 2)) (recovered_ctl [-1; 2]), None),
     with_record "-1,2") /\
  well_formed_record "4294967296,0" = true /\
  GetConnection no_handshake (recovered_ctl [4294967296; 0]) tt "debug"
    "error" (Some fuse_dev) (with_record "4294967296,0")
  = (Ret (set_conn
            (Some (recovered_conn tt "debug" "error" (Some fuse_dev) 0 0))
            (recovered_ctl [4294967296; 0]), None),
     with_record "4294967296,0").
Proof. repeat split; vm_compute; reflexivity. Qed.

Lemma GetConnection_spec_witness :
  GetConnection no_handshake (recovered_ctl [7; 31]) tt "debug" "error"
    (Some fuse_dev) (with_record "7,31")
  = (Ret (set_conn
            (Some (recovered_conn tt "debug" "error" (Some fuse_dev) 7 31))
            (recovered_ctl [7; 31]), None),
     with_record "7,31").
Proof.
  destruct (GetConnection_spec no_handshake (recovered_ctl [7; 31]) tt
              "debug" "error" (Some fuse_dev) (with_record "7,31"))
    as (_ & Hok & _).
  apply (Hok eq_refl "7"%string "31"%string 7 31);
    [discriminate | reflexivity | reflexivity | | reflexivity | ];
    unfold fits_int, strconv.min_int, strconv.max_int; lia.
Defined.

(** A fresh controller hands the work to the session constructor. *)
Example GetConnection_fresh :
  fst (GetConnection no_handshake fresh_ctl tt "debug" "error"
         (Some fuse_dev) world0) = Panic "handshake".
Proof. reflexivity. Qed.

Lemma GetConnection_error_leaves_conn_witness :
  exists e gr',
    GetConnection no_handshake (recovered_ctl [7]) tt "debug" "error"
      (Some fuse_dev) (with_record "7,x") = (Ret (gr', Some e), with_record "7,x") /\
    conn gr' = Some (recovered_conn tt "debug" "error" (Some fuse_dev) 0 0) /\
    gr' <> recovered_ctl [7].
Proof.
  destruct (GetConnection_error_leaves_conn no_handshake (recovered_ctl [7])
              tt "debug" "error" (Some fuse_dev) (with_record "7,x")
              "7"%string "x"%string)
    as (e & gr' & Hres & _ & Hconn & Hne).
  - reflexivity.
  - discriminate.
  - reflexivity.
  - right. exists strconv.ErrSyntax. reflexivity.
  - exists e, gr'. split; [exact Hres|]. split; [exact Hconn|].
    apply Hne. reflexivity.
Defined.

Lemma handoff_roundtrip_witness :
  GetConnection no_handshake (recovered_ctl [7; 31]) tt "debug" "error"
    (Some fuse_dev) (with_record (ver_str session_7_31))
  = (Ret (set_conn
            (Some (recovered_conn tt "debug" "error" (Some fuse_dev) 7 31))
            (recovered_ctl [7; 31]), None),
     with_record (ver_str session_7_31)).
Proof.
  apply (handoff_roundtrip no_handshake session_7_31 (recovered_ctl [7; 31])
           tt "debug" "error" (Some fuse_dev)
           (with_record (ver_str session_7_31))).
  - simpl. lia.
  - simpl. lia.
  - reflexivity.
  - reflexivity.
Defined.

(** The record travels in the environment of the child. *)
Example Restart_child_env :
  child_env <$> spawned (snd (Restart plain_join unix_FindProcess serving_ctl
                                (mk_world no_fault (child_ready_at 0))))
  = [ {[ "_GRACEFUL_RESTART"%string := "7,31"%string ]} ].
Proof. vm_compute. reflexivity. Qed.

Lemma WritePidFile_exact_witness :
  exists w',
    WritePidFile plain_join "/run" "qfs-fuse" world_pid7 = (Ret None, w') /\
    files w' !! "/run/qfs-fuse.pid"%string = Some (list_ascii_of_string "7").
Proof.
  destruct (WritePidFile_exact plain_join "/run" "qfs-fuse" world_pid7)
    as (Hexact & Hok).
  destruct (Hok (fun sc => eq_refl)) as (w' & Hres).
  exists w'. split; [exact Hres|].
  exact (proj1 (Hexact w' Hres)).
Defined.

Lemma Restart_wait_stat_outcome_witness :
  Restart_wait unix_FindProcess serving_ctl 101 marker_101 60
    (mk_world run_dir_denied quiet)
  = (Ret (101, None),
     observed serving_ctl 101 marker_101 (mk_world run_dir_denied quiet)) /\
  files (observed serving_ctl 101 marker_101 (mk_world run_dir_denied quiet))
  = files (mk_world run_dir_denied quiet).
Proof.
  destruct (Restart_wait_stat_outcome plain_join unix_FindProcess
              serving_ctl 101 marker_101 59
              (mk_world run_dir_denied quiet)) as (_ & H & _).
  destruct (H EACCES eq_refl ltac:(discriminate)) as (Hres & Hnone & _).
  split; [exact Hres | exact (Hnone eq_refl)].
Defined.

(** The whole of Restart when stat is refused: success at the first test,
    with no marker ever written. *)
Example Restart_stat_denied :
  fst (Restart plain_join unix_FindProcess serving_ctl
         (mk_world run_dir_denied quiet)) = Ret (101, None) /\
  files (snd (Restart plain_join unix_FindProcess serving_ctl
                (mk_world run_dir_denied quiet))) = ∅ /\
  now (snd (Restart plain_join unix_FindProcess serving_ctl
              (mk_world run_dir_denied quiet))) = 0.
Proof. repeat split; vm_compute; reflexivity. Qed.



(** After a callback that succeeds nothing is received any more. *)
Example exited_task_receives_nothing :
  watch_run
    [Deliver 1; Receive 0%nat; Invoke 0%nat; Deliver 1; Return 0 None;
     Receive 0%nat]
    (watch_init fresh_ctl 1) = None.
Proof. reflexivity. Qed.

Lemma watch_continuation_witness :
  exists s sn se s'' : @Watch unit,
    watch_run [Deliver 1; Receive 0%nat; Invoke 0%nat]
      (watch_init fresh_ctl 1) = Some s /\
    watch_step (Return 0 None) s = Some sn /\
    tasks sn !! 0%nat = Some Exited /\
    restarting (ctl sn) = true /\
    watch_step (Return 0 (Some ErrGRestartFailed)) s = Some se /\
    restarting (ctl se) = false /\
    watch_run [Deliver 1; Receive 0%nat; Invoke 0%nat] se = Some s'' /\
    invoked s'' = 2%nat.
Proof.
  exists first_call.
  destruct (watch_continuation 0 first_call eq_refl)
    as [(sn & Hn & Hex & Hflag & _) Herr].
  destruct (Herr ErrGRestartFailed) as (se & He & Hclear & _ & Hinv & Hnext).
  destruct (Hnext 1) as (s'' & Hrun & Hcount & _).
  exists sn, se, s''.
  split; [reflexivity|]. split; [exact Hn|]. split; [exact Hex|].
  split; [rewrite Hflag; reflexivity|]. split; [exact He|].
  split; [exact Hclear|]. split; [exact Hrun|].
  rewrite Hcount, Hinv. reflexivity.
Defined.

(** ** Further properties of Restart *)

Section RestartOutcomes.
Context {MountConfig : Type}.
Variable filepath_Join : string -> string -> string.

Lemma ticks_succ_r k : forall w, ticks (S k) w = tick (ticks k w).
Proof. induction k as [|k IH]; intros w; [reflexivity|]. apply (IH (tick w)). Qed.

(** Only the files, the process table and the clock change with time. *)
Lemma ticks_frame k : forall w,
  environ (ticks k w) = environ w /\ spawned (ticks k w) = spawned w /\
  logged (ticks k w) = logged w /\ pid (ticks k w) = pid w /\
  next_pid (ticks k w) = next_pid w /\ others (ticks k w) = others w /\
  fault (ticks k w) = fault w.
Proof.
  induction k as [|k IH]; intros w; [repeat split|].
  destruct (IH (tick w)) as (H1 & H2 & H3 & H4 & H5 & H6 & H7).
  simpl ticks. rewrite H1, H2, H3, H4, H5, H6, H7. repeat split.
Qed.

(** Remove changes nothing but the files. *)
Lemma Remove_frame path w :
  environ (snd (Remove path w)) = environ w /\
  spawned (snd (Remove path w)) = spawned w /\
  logged (snd (Remove path w)) = logged w /\
  now (snd (Remove path w)) = now w /\
  procs (snd (Remove path w)) = procs w /\
  pid (snd (Remove path w)) = pid w.
Proof.
  unfold Remove. destruct (fault w (SysRemove path)); [repeat split|].
  destruct (files w !! path); repeat split.
Qed.

Lemma Restart_wait_step os_FindProcess (gr : @Graceful MountConfig)
    p path n w :
  marker_seen path w = false ->
  Restart_wait os_FindProcess gr p path (S n) w
  = Restart_wait os_FindProcess gr p path n (tick w).
Proof.
  intros Hs. simpl Restart_wait. unfold bind at 1. unfold marker_seen in Hs.
  destruct (Stat_pure path w) as [err Hst]. rewrite Hst in *.
  now rewrite Hs.
Qed.

(** On Unix the loop of Restart ends in one of two ways: at the first test
    that holds, or after [n] seconds with RestartChildNotReady. *)
Lemma Restart_wait_unix (gr : @Graceful MountConfig) p path n : forall w,
  exists k,
    ((k < n)%nat /\ marker_seen path (ticks k w) = true /\
     Restart_wait unix_FindProcess gr p path n w
     = (Ret (p, None), observed gr p path (ticks k w))) \/
    (k = n /\
     Restart_wait unix_FindProcess gr p path n w
     = (Ret (p, Some ErrGRestartChildNotReady), ticks n w)).
Proof.
  induction n as [|n IH]; intros w.
  - exists O. right. split; reflexivity.
  - destruct (marker_seen path w) eqn:Hs.
    + exists O. left. split; [lia|]. split; [exact Hs|].
      apply (Restart_wait_seen unix_FindProcess gr p path (S n) O w);
        [lia | intros; lia | exact Hs].
    + rewrite (Restart_wait_step _ gr p path n w Hs).
      destruct (IH (tick w)) as [k [(Hk & Hseen & Hres)|(Hk & Hres)]].
      * exists (S k). left. split; [lia|]. split; [exact Hseen|exact Hres].
      * exists (S k). right. split; [lia|]. subst k. exact Hres.
Qed.

(** X1: when the child cannot be started, Restart returns
    (0, RestartFailed) at once, whatever the timeout and the process
    lookup: no file, process or clock has changed and no child is
    recorded; the handoff record stays in this process's environment and
    two lines are logged. *)
Theorem Restart_launch_failure_rollback os_FindProcess
    (gr : @Graceful MountConfig) c w e :
  conn gr = Some c ->
  fault w (SysExec (arg0 w)) = Some e ->
  exists w',
    Restart filepath_Join os_FindProcess gr w
    = (Ret (0, Some ErrGRestartFailed), w') /\
    files w' = files w /\ procs w' = procs w /\ now w' = now w /\
    spawned w' = spawned w /\ next_pid w' = next_pid w /\
    environ w' = <["_GRACEFUL_RESTART"%string := ver_str c]> (environ w) /\
    logged w' = logged w ++
      [(logger gr, LogStartChild (ver_str c));
       (logger gr, LogForkError (ErrPath "fork/exec" (arg0 w) e))].
Proof.
  intros Hc Hf. unfold Restart. rewrite Hc.
  unfold bind, Setenv, Printf, Start, ret. simpl. rewrite Hf.
  eexists. split; [reflexivity|]. simpl.
  rewrite <- app_assoc. repeat split.
Qed.

(** X2: on Unix, with a session, Restart never panics and has exactly three
    results: (0, RestartFailed) when the child cannot be started, and
    otherwise (childPid, nil) or (childPid, RestartChildNotReady) with the
    pid of the child it started; it takes at most RestartTimeout seconds,
    and all of them when it gives up. *)
Theorem Restart_unix_outcomes (gr : @Graceful MountConfig) c w :
  conn gr = Some c ->
  exists r w',
    Restart filepath_Join unix_FindProcess gr w = (Ret r, w') /\
    (fault w (SysExec (arg0 w)) <> None ->
     r = (0, Some ErrGRestartFailed) /\ now w' = now w) /\
    (fault w (SysExec (arg0 w)) = None ->
     (r = (next_pid w, None) /\
      now w <= now w' < now w + Z.max 0 (RestartTimeout gr)) \/
     (r = (next_pid w, Some ErrGRestartChildNotReady) /\
      now w' = now w + Z.max 0 (RestartTimeout gr))).
Proof.
  intros Hc. destruct (fault w (SysExec (arg0 w))) as [e|] eqn:Hf.
  - destruct (Restart_launch_failure filepath_Join unix_FindProcess
                gr c w e Hc Hf) as (w' & Hres & _ & _ & Hnow & _).
    exists (0, Some ErrGRestartFailed), w'.
    split; [exact Hres|]. split; [auto | discriminate].
  - rewrite (Restart_launched filepath_Join unix_FindProcess gr c w Hc Hf).
    destruct (Restart_wait_unix gr (next_pid w)
                (getChildPath filepath_Join gr (next_pid w))
                (Z.to_nat (RestartTimeout gr)) (launched gr c w))
      as [k [(Hk & _ & Hres)|(Hk & Hres)]]; rewrite Hres.
    + eexists _, _. split; [reflexivity|]. split; [congruence|].
      intros _. left. split; [reflexivity|].
      unfold observed. simpl now.
      destruct (Remove_frame (getChildPath filepath_Join gr (next_pid w))
                  (ticks k (launched gr c w))) as (_ & _ & _ & Hn & _).
      rewrite Hn, now_ticks. simpl now. lia.
    + eexists _, _. split; [reflexivity|]. split; [congruence|].
      intros _. right. split; [reflexivity|].
      rewrite now_ticks. simpl now. lia.
Qed.

(** X3: whenever Restart gets to start the child, on Unix, exactly one
    process has been started when it returns, whatever the result: the
    same executable with the same arguments, the device as its only extra
    file, and an environment that is this process's own with the handoff
    record of the session in it; that record also stays in this process's
    environment. *)
Theorem Restart_child_inherits (gr : @Graceful MountConfig) c w :
  conn gr = Some c ->
  fault w (SysExec (arg0 w)) = None ->
  exists r w',
    Restart filepath_Join unix_FindProcess gr w = (Ret r, w') /\
    spawned w' = spawned w ++
      [{| child_pid := next_pid w; child_path := arg0 w;
          child_args := args w;
          child_env := <["_GRACEFUL_RESTART"%string := ver_str c]> (environ w);
          child_extra := [dev gr] |}] /\
    environ w' = <["_GRACEFUL_RESTART"%string := ver_str c]> (environ w) /\
    next_pid w' = next_pid w + 1.
Proof.
  intros Hc Hf.
  rewrite (Restart_launched filepath_Join unix_FindProcess gr c w Hc Hf).
  destruct (Restart_wait_unix gr (next_pid w)
              (getChildPath filepath_Join gr (next_pid w))
              (Z.to_nat (RestartTimeout gr)) (launched gr c w))
    as [k [(Hk & _ & Hres)|(Hk & Hres)]]; rewrite Hres;
    eexists _, _; (split; [reflexivity|]).
  - unfold observed. simpl.
    destruct (Remove_frame (getChildPath filepath_Join gr (next_pid w))
                (ticks k (launched gr c w))) as (He & Hs & _).
    destruct (ticks_frame k (launched gr c w)) as (He' & Hs' & _).
    assert (Hnp : forall path v, next_pid (snd (Remove path v)) = next_pid v).
    { intros path v. unfold Remove.
      destruct (fault v (SysRemove path)); [reflexivity|].
      destruct (files v !! path); reflexivity. }
    rewrite He, Hs, He', Hs', Hnp.
    destruct (ticks_frame k (launched gr c w)) as (_ & _ & _ & _ & Hn & _).
    rewrite Hn. repeat split.
  - destruct (ticks_frame (Z.to_nat (RestartTimeout gr)) (launched gr c w))
      as (He' & Hs' & _ & _ & Hn & _).
    rewrite He', Hs', Hn. repeat split.
Qed.

(** X4: with a timeout of zero or less Restart starts the child and gives
    up without a single test or sleep: on Unix the result is
    (childPid, RestartChildNotReady) even when the marker is already
    there, and the marker is left alone. *)
Theorem Restart_nonpositive_timeout (gr : @Graceful MountConfig) c w :
  conn gr = Some c ->
  fault w (SysExec (arg0 w)) = None ->
  RestartTimeout gr <= 0 ->
  Restart filepath_Join unix_FindProcess gr w
  = (Ret (next_pid w, Some ErrGRestartChildNotReady), launched gr c w) /\
  files (launched gr c w) = files w /\ now (launched gr c w) = now w.
Proof.
  intros Hc Hf Ht.
  rewrite (Restart_launched filepath_Join unix_FindProcess gr c w Hc Hf).
  replace (Z.to_nat (RestartTimeout gr)) with O by lia.
  repeat split.
Qed.

End RestartOutcomes.

(** ** Further properties of the recovered start *)

Section RecoveredStart.
Context {MountConfig : Type}.
Variable newConnection :
  MountConfig -> Logger -> Logger -> option File ->
  Go (option (@Connection MountConfig) * option error).

Lemma ver_str_fields (c : @Connection MountConfig) :
  0 <= Major (protocol c) < 2 ^ 32 ->
  0 <= Minor (protocol c) < 2 ^ 32 ->
  ver_str c <> EmptyString /\
  strings.Split (ver_str c) "," =
    [strconv.Itoa (Major (protocol c)); strconv.Itoa (Minor (protocol c))].
Proof.
  intros HM Hm.
  destruct (Itoa_uint32 _ HM) as (HdM & HlM & _).
  destruct (Itoa_uint32 _ Hm) as (Hdm & Hlm & _).
  assert (Hv : ver_str c = strconv.Itoa (Major (protocol c)) +:+
                 String "," (strconv.Itoa (Minor (protocol c))))
    by reflexivity.
  split.
  - rewrite Hv.
    destruct (strconv.Itoa (Major (protocol c))); [simpl in HlM; lia|].
    discriminate.
  - rewrite Hv, Split_field by exact HdM. now rewrite Split_digits.
Qed.

(** X5: a process that finds in its environment the record Restart wrote
    for a session with version (major, minor), both 32-bit unsigned, comes
    up recovered: NewGraceful keeps [major; minor] as the recovered
    version and logs no invalid field, and GetConnection on that
    controller builds the session with exactly that version, without the
    session constructor. *)
Theorem recovered_startup (c : @Connection MountConfig) (lg : Logger)
    (rd pn : string) (cfg_ : MountConfig) (dl el : Logger)
    (dev_ : option File) (w : OS) :
  0 <= Major (protocol c) < 2 ^ 32 ->
  0 <= Minor (protocol c) < 2 ^ 32 ->
  environ w !! "_GRACEFUL_RESTART"%string = Some (ver_str c) ->
  exists (gr : @Graceful MountConfig) w1,
    NewGraceful lg rd pn w = (Ret gr, w1) /\
    recovered gr = true /\
    recoveredVer gr = [Major (protocol c); Minor (protocol c)] /\
    logged w1 = logged w ++ [(lg, LogRecovering (pid w) (ver_str c))] /\
    GetConnection newConnection gr cfg_ dl el dev_ w1
    = (Ret (set_conn
              (Some (recovered_conn cfg_ dl el dev_
                       (Major (protocol c)) (Minor (protocol c)))) gr,
            None), w1).
Proof.
  intros HM Hm Henv.
  destruct (ver_str_fields c HM Hm) as [Hne Hs].
  assert (Hrec : handoff_record w = ver_str c)
    by (unfold handoff_record; now rewrite Henv).
  unfold NewGraceful, checkRecover, bind, Getenv, Getpid, Printf, ret.
  fold (handoff_record w). rewrite Hrec.
  destruct (String.eqb_spec (ver_str c) "") as [He|_]; [contradiction|].
  rewrite checkRecover_fields_spec, Hs. simpl parsed_prefix.
  simpl invalid_log.
  rewrite !Atoi_Itoa_uint32 by assumption.
  eexists _, _. split; [reflexivity|]. simpl.
  rewrite app_nil_r.
  repeat split.
  rewrite (GetConnection_recovered_ok newConnection _ cfg_ dl el dev_ _
             (strconv.Itoa (Major (protocol c)))
             (strconv.Itoa (Minor (protocol c)))
             (Major (protocol c)) (Minor (protocol c)));
    auto using Atoi_Itoa_uint32.
  - now rewrite !uint32_small.
  - unfold handoff_record. simpl. now rewrite Henv.
  - unfold handoff_record. simpl. now rewrite Henv.
Qed.

(** X6: on a recovered controller an absent or empty record, and a record
    that does not split into exactly two fields, are refused before
    anything is stored: GetConnection returns its own error with the
    controller, the session in it and the state unchanged, and the session
    constructor is not called. *)
Theorem GetConnection_early_error (gr : @Graceful MountConfig)
    (cfg_ : MountConfig) (dl el : Logger) (dev_ : option File) (w : OS) :
  recovered gr = true ->
  (handoff_record w = EmptyString ->
   GetConnection newConnection gr cfg_ dl el dev_ w
   = (Ret (gr, Some (ErrMsg "Cannot get fuse version")), w)) /\
  (handoff_record w <> EmptyString ->
   length (strings.Split (handoff_record w) ",") <> 2%nat ->
   GetConnection newConnection gr cfg_ dl el dev_ w
   = (Ret (gr, Some (ErrMsg "Invalid version length")), w)).
Proof.
  intros Hr. unfold GetConnection. rewrite Hr.
  unfold bind, Getenv, ret. fold (handoff_record w). split.
  - intros ->. reflexivity.
  - intros Hne Hlen.
    destruct (String.eqb_spec (handoff_record w) "") as [He|_];
      [contradiction|].
    destruct (strings.Split (handoff_record w) ",") as [|v0 [|v1 [|v2 r]]];
      try reflexivity.
    simpl in Hlen. lia.
Qed.

End RecoveredStart.

(** ** Further properties of the pid file *)

Section PidFileOutcomes.
Variable filepath_Join : string -> string -> string.

Ltac case_faults w :=
  repeat match goal with
         | |- context [fault w ?sc] =>
             let H := fresh "Hfault" in
             destruct (fault w sc) eqn:H; simpl
         end.

(** WritePidFile when none of its five calls fails. *)
Lemma WritePidFile_ok (rd pn : string) (w : OS) :
  fault w (SysOpen (pid_path filepath_Join rd pn)) = None ->
  fault w (SysSeek (pid_path filepath_Join rd pn)) = None ->
  fault w (SysWrite (pid_path filepath_Join rd pn)) = None ->
  fault w (SysTruncate (pid_path filepath_Join rd pn)) = None ->
  fault w (SysSync (pid_path filepath_Join rd pn)) = None ->
  WritePidFile filepath_Join rd pn w
  = (Ret None,
     set_files (<[pid_path filepath_Join rd pn := pid_text w]> (files w)) w).
Proof.
  unfold pid_path, pid_text. set (path := filepath_Join rd (pn +:+ ".pid")).
  intros Ho Hs Hw Ht Hy.
  unfold WritePidFile, bind, OpenFile, Seek, Getpid, Fprint, Truncate,
    Sync, ret. fold path. rewrite Ho.
  destruct (files w !! path) as [old|] eqn:Hold;
    repeat (cbn [fault set_files name offset files]; rewrite ?Hs, ?Hw, ?Ht, ?Hy);
    rewrite ?lookup_insert_eq; cbn [default from_option id pid set_files];
    rewrite truncate_write_exact, ?insert_insert_eq; reflexivity.
Qed.

(** Whatever happens, WritePidFile returns, and touches the pid file
    only. *)
Lemma WritePidFile_frame (rd pn : string) (w : OS) :
  exists r w',
    WritePidFile filepath_Join rd pn w = (Ret r, w') /\
    (forall path, path <> pid_path filepath_Join rd pn ->
                  files w' !! path = files w !! path) /\
    environ w' = environ w /\ procs w' = procs w /\ now w' = now w /\
    pid w' = pid w /\ fault w' = fault w /\ spawned w' = spawned w /\
    logged w' = logged w.
Proof.
  unfold pid_path. set (path := filepath_Join rd (pn +:+ ".pid")).
  unfold WritePidFile, bind, OpenFile, Seek, Getpid, Fprint, Truncate,
    Sync, ret. fold path. simpl.
  case_faults w;
    try (destruct (files w !! path) as [old|] eqn:Hold; simpl;
         case_faults w);
    eexists _, _; (split; [reflexivity|]); simpl;
    (split; [intros p Hp; now rewrite ?lookup_insert_ne by congruence|]);
    repeat split.
Qed.

Lemma WritePidFile_open_fails (rd pn : string) (w : OS) e :
  fault w (SysOpen (pid_path filepath_Join rd pn)) = Some e ->
  WritePidFile filepath_Join rd pn w
  = (Ret (Some (ErrPath "open" (pid_path filepath_Join rd pn) e)), w).
Proof.
  intros Ho. unfold WritePidFile, bind, OpenFile, pid_path in *.
  now rewrite Ho.
Qed.

(** X7: what WritePidFile leaves behind when it fails.  It returns nil
    exactly when none of open, seek, write, truncate and sync fails; in
    every case no file other than the pid file is touched; a failed open
    changes nothing at all; and when the truncation fails after the write,
    the error is returned with the new digits in place and the tail of a
    longer previous content still behind them. *)
Theorem WritePidFile_failure (rd pn : string) (w : OS) :
  (exists r w',
     WritePidFile filepath_Join rd pn w = (Ret r, w') /\
     (forall path, path <> pid_path filepath_Join rd pn ->
                   files w' !! path = files w !! path) /\
     (r = None <->
      fault w (SysOpen (pid_path filepath_Join rd pn)) = None /\
      fault w (SysSeek (pid_path filepath_Join rd pn)) = None /\
      fault w (SysWrite (pid_path filepath_Join rd pn)) = None /\
      fault w (SysTruncate (pid_path filepath_Join rd pn)) = None /\
      fault w (SysSync (pid_path filepath_Join rd pn)) = None)) /\
  (forall e,
     fault w (SysOpen (pid_path filepath_Join rd pn)) = Some e ->
     WritePidFile filepath_Join rd pn w
     = (Ret (Some (ErrPath "open" (pid_path filepath_Join rd pn) e)), w)) /\
  (forall e old,
     fault w (SysOpen (pid_path filepath_Join rd pn)) = None ->
     fault w (SysSeek (pid_path filepath_Join rd pn)) = None ->
     fault w (SysWrite (pid_path filepath_Join rd pn)) = None ->
     fault w (SysTruncate (pid_path filepath_Join rd pn)) = Some e ->
     files w !! pid_path filepath_Join rd pn = Some old ->
     exists w',
       WritePidFile filepath_Join rd pn w
       = (Ret (Some (ErrPath "truncate" (pid_path filepath_Join rd pn) e)),
          w') /\
       files w' !! pid_path filepath_Join rd pn
       = Some (pid_text w ++ drop (length (pid_text w)) old)).
Proof.
  unfold pid_path, pid_text. set (path := filepath_Join rd (pn +:+ ".pid")).
  split; [|split].
  - unfold WritePidFile, bind, OpenFile, Seek, Getpid, Fprint, Truncate,
      Sync, ret. fold path. simpl.
    case_faults w;
      try (destruct (files w !! path) as [old|] eqn:Hold; simpl;
           case_faults w);
      eexists _, _; (split; [reflexivity|]); simpl;
      (split; [intros p Hp; now rewrite ?lookup_insert_ne by congruence|]);
      (split; [intros; try discriminate; repeat split; congruence
              | intros (? & ? & ? & ? & ?); congruence]).
  - intros e Ho. now apply WritePidFile_open_fails.
  - intros e old Ho Hs Hw Ht Hold.
    unfold WritePidFile, bind, OpenFile, Seek, Getpid, Fprint, Truncate,
      ret. fold path. rewrite Ho, Hold.
    repeat (cbn [fault set_files name offset files]; rewrite ?Hs, ?Hw, ?Ht).
    eexists. split; [reflexivity|]. simpl.
    rewrite lookup_insert_eq. unfold write_at. simpl.
    now rewrite Hold.
Qed.

End PidFileOutcomes.

(** ** Ready *)

Section ReadyProperties.
Context {MountConfig CB : Type}.
Variable filepath_Join : string -> string -> string.

(** Ready once the pid file is written. *)
Lemma Ready_after_pidfile (gr : @Graceful MountConfig) (sig : Signal)
    (cb : CB) (tr : list (@Event CB)) (w : OS) :
  fault w (SysOpen (pid_path filepath_Join (runDir gr) (progName gr))) = None ->
  fault w (SysSeek (pid_path filepath_Join (runDir gr) (progName gr))) = None ->
  fault w (SysWrite (pid_path filepath_Join (runDir gr) (progName gr))) = None ->
  fault w (SysTruncate (pid_path filepath_Join (runDir gr) (progName gr)))
    = None ->
  fault w (SysSync (pid_path filepath_Join (runDir gr) (progName gr))) = None ->
  Ready filepath_Join gr sig cb tr w
  = let written :=
      <[pid_path filepath_Join (runDir gr) (progName gr) := pid_text w]>
        (files w) in
    if recovered gr then
      match fault w (SysOpen (getChildPath filepath_Join gr (pid w))) with
      | Some e =>
          (Ret (Some (ErrCannotCreate (getChildPath filepath_Join gr (pid w))
                        (ErrPath "open"
                           (getChildPath filepath_Join gr (pid w)) e)), tr),
           set_files written w)
      | None =>
          (Ret (None, tr ++ ready_trace gr sig cb (pid w)),
           set_files (touched (getChildPath filepath_Join gr (pid w)) written)
             w)
      end
    else (Ret (None, tr ++ ready_trace gr sig cb (pid w)),
          set_files written w).
Proof.
  intros Ho Hs Hw Ht Hy.
  unfold Ready, abind, lift, bind at 1. unfold bind at 1.
  rewrite (WritePidFile_ok filepath_Join _ _ w Ho Hs Hw Ht Hy).
  cbn [ret fst snd]. unfold ready_trace.
  destruct (recovered gr).
  - unfold abind, lift, emit, aret, bind, Getpid, OpenFile, ret, touched.
    cbn [fst snd pid fault files set_files].
    destruct (fault w (SysOpen (getChildPath filepath_Join gr (pid w))));
      [reflexivity|].
    destruct (_ !! getChildPath filepath_Join gr (pid w));
      cbn [fst snd pid]; rewrite <- !app_assoc; reflexivity.
  - unfold abind, lift, emit, aret, bind, Getpid, ret.
    cbn [fst snd pid]. rewrite <- !app_assoc. reflexivity.
Qed.

(** X8: when the calls on the pid file succeed, and on a recovered start
    the opening of the marker too, Ready returns nil with the callback
    stored, one watch task started, the signal registered and the line
    logged, in that order; the pid file holds exactly the digits of the
    pid; a recovered process has its marker <runDir>/<progName>_<pid>,
    created empty or left as it was, and a fresh one creates no marker;
    no other file is touched. *)
Theorem Ready_success (gr : @Graceful MountConfig) (sig : Signal)
    (cb : CB) (tr : list (@Event CB)) (w : OS) :
  fault w (SysOpen (pid_path filepath_Join (runDir gr) (progName gr))) = None ->
  fault w (SysSeek (pid_path filepath_Join (runDir gr) (progName gr))) = None ->
  fault w (SysWrite (pid_path filepath_Join (runDir gr) (progName gr))) = None ->
  fault w (SysTruncate (pid_path filepath_Join (runDir gr) (progName gr)))
    = None ->
  fault w (SysSync (pid_path filepath_Join (runDir gr) (progName gr))) = None ->
  (recovered gr = true ->
   fault w (SysOpen (getChildPath filepath_Join gr (pid w))) = None) ->
  getChildPath filepath_Join gr (pid w)
    <> pid_path filepath_Join (runDir gr) (progName gr) ->
  exists w',
    Ready filepath_Join gr sig cb tr w
    = (Ret (None, tr ++ ready_trace gr sig cb (pid w)), w') /\
    files w' !! pid_path filepath_Join (runDir gr) (progName gr)
    = Some (pid_text w) /\
    files w' !! getChildPath filepath_Join gr (pid w)
    = (if recovered gr
       then Some (default [] (files w !! getChildPath filepath_Join gr (pid w)))
       else files w !! getChildPath filepath_Join gr (pid w)) /\
    (forall path,
       path <> pid_path filepath_Join (runDir gr) (progName gr) ->
       path <> getChildPath filepath_Join gr (pid w) ->
       files w' !! path = files w !! path).
Proof.
  intros Ho Hs Hw Ht Hy Hm Hne.
  rewrite (Ready_after_pidfile gr sig cb tr w Ho Hs Hw Ht Hy). cbv zeta.
  destruct (recovered gr).
  - rewrite (Hm eq_refl). eexists. split; [reflexivity|].
    cbn [files set_files]. unfold touched.
    rewrite lookup_insert_ne by congruence.
    destruct (files w !! getChildPath filepath_Join gr (pid w)) as [m|] eqn:Hk.
    + rewrite lookup_insert_eq, lookup_insert_ne, Hk by congruence.
      repeat split. intros path H1 H2. now rewrite lookup_insert_ne.
    + rewrite lookup_insert_eq, lookup_insert_ne, lookup_insert_eq
        by congruence.
      repeat split. intros path H1 H2.
      now rewrite !lookup_insert_ne by congruence.
  - eexists. split; [reflexivity|]. cbn [files set_files].
    rewrite lookup_insert_eq, lookup_insert_ne by congruence.
    repeat split. intros path H1 H2. now rewrite lookup_insert_ne.
Qed.

(** X9: Ready never panics, and it registers nothing unless it returns
    nil: when it returns an error the trace is as before, so no callback
    is stored, no watch task runs and the signal is not registered.  When
    the pid file cannot be opened nothing has changed at all; when, on a
    recovered start, only the marker cannot be opened, the pid file has
    been written all the same. *)
Theorem Ready_failure (gr : @Graceful MountConfig) (sig : Signal)
    (cb : CB) (tr : list (@Event CB)) (w : OS) :
  (exists r tr' w',
     Ready filepath_Join gr sig cb tr w = (Ret (r, tr'), w') /\
     ((r = None /\ tr' = tr ++ ready_trace gr sig cb (pid w)) \/
      (r <> None /\ tr' = tr))) /\
  (forall e,
     fault w (SysOpen (pid_path filepath_Join (runDir gr) (progName gr)))
       = Some e ->
     Ready filepath_Join gr sig cb tr w
     = (Ret (Some (ErrCannotCreatePidfile
                     (ErrPath "open"
                        (pid_path filepath_Join (runDir gr) (progName gr)) e)),
             tr), w)) /\
  (forall e,
     recovered gr = true ->
     fault w (SysOpen (pid_path filepath_Join (runDir gr) (progName gr)))
       = None ->
     fault w (SysSeek (pid_path filepath_Join (runDir gr) (progName gr)))
       = None ->
     fault w (SysWrite (pid_path filepath_Join (runDir gr) (progName gr)))
       = None ->
     fault w (SysTruncate (pid_path filepath_Join (runDir gr) (progName gr)))
       = None ->
     fault w (SysSync (pid_path filepath_Join (runDir gr) (progName gr)))
       = None ->
     fault w (SysOpen (getChildPath filepath_Join gr (pid w))) = Some e ->
     exists w',
       Ready filepath_Join gr sig cb tr w
       = (Ret (Some (ErrCannotCreate (getChildPath filepath_Join gr (pid w))
                       (ErrPath "open"
                          (getChildPath filepath_Join gr (pid w)) e)), tr),
          w') /\
       files w' !! pid_path filepath_Join (runDir gr) (progName gr)
       = Some (pid_text w)).
Proof.
  split; [|split].
  - destruct (WritePidFile_frame filepath_Join (runDir gr) (progName gr) w)
      as (r & w1 & Hres & _ & _ & _ & _ & Hpid & Hfault & _).
    unfold Ready, abind, lift, bind at 1. unfold bind at 1.
    rewrite Hres. cbn [ret fst snd]. unfold ready_trace.
    destruct r as [e|].
    { eexists _, _, _. split; [reflexivity|]. right.
      split; [discriminate | reflexivity]. }
    destruct (recovered gr).
    + unfold abind, lift, emit, aret, bind, Getpid, OpenFile, ret.
      cbn [fst snd].
      destruct (fault w1 (SysOpen (getChildPath filepath_Join gr (pid w1)))).
      { eexists _, _, _. split; [reflexivity|]. right.
        split; [discriminate | reflexivity]. }
      destruct (files w1 !! getChildPath filepath_Join gr (pid w1));
        cbn [fst snd pid set_files]; rewrite <- !app_assoc, Hpid;
        eexists _, _, _; (split; [reflexivity|]); left; split; reflexivity.
    + unfold abind, lift, emit, aret, bind, Getpid, ret.
      cbn [fst snd]. rewrite <- !app_assoc, Hpid.
      eexists _, _, _. split; [reflexivity|]. left. split; reflexivity.
  - intros e Ho.
    unfold Ready, abind, lift, bind at 1. unfold bind at 1.
    rewrite (WritePidFile_open_fails filepath_Join _ _ w e Ho). reflexivity.
  - intros e Hr Ho Hs Hw Ht Hy Hm.
    rewrite (Ready_after_pidfile gr sig cb tr w Ho Hs Hw Ht Hy). cbv zeta.
    rewrite Hr, Hm. eexists. split; [reflexivity|].
    cbn [files set_files]. apply lookup_insert_eq.
Qed.

End ReadyProperties.

(** ** The restart callback of MountWithGraceful *)

Section CallbackProperties.
Context {MountConfig CB : Type}.
Variable filepath_Join : string -> string -> string.

Lemma triggerOps_returns dir w :
  triggerOps dir w = (Ret tt, snd (triggerOps dir w)).
Proof.
  unfold triggerOps, bind, Start, ret.
  destruct (fault w (SysExec "stat")); reflexivity.
Qed.

(** The callback when Restart reports RestartFailed. *)
Lemma restartCallback_failed os_FindProcess (dir : string) (dl : Logger)
    (gr : @Graceful MountConfig) (tr : list (@Event CB)) w child w1 :
  Restart filepath_Join os_FindProcess gr w
  = (Ret (child, Some ErrGRestartFailed), w1) ->
  restartCallback filepath_Join os_FindProcess dir dl gr tr w
  = (Ret ((gr, Some ErrGRestartFailed),
          tr ++ [EvLog dl "gracefule retart error: %v"
                   [ArgErr ErrGRestartFailed]]), w1).
Proof.
  intros Hres. unfold restartCallback, abind, lift, bind at 1.
  unfold bind at 1. rewrite Hres. reflexivity.
Qed.

(** The callback when Restart reports anything else. *)
Lemma restartCallback_handoff os_FindProcess (dir : string) (dl : Logger)
    (gr : @Graceful MountConfig) (tr : list (@Event CB)) w child err w1 :
  Restart filepath_Join os_FindProcess gr w = (Ret (child, err), w1) ->
  err <> Some ErrGRestartFailed ->
  restartCallback filepath_Join os_FindProcess dir dl gr tr w
  = if stop gr
    then (Panic "close of closed channel", snd (triggerOps dir w1))
    else (Ret ((set_stop true gr, err),
               tr ++ handoff_trace dl child err
                       (bool_decide (child ∈ procs (snd (triggerOps dir w1))))),
          snd (triggerOps dir w1)).
Proof.
  intros Hres Hne.
  unfold restartCallback, abind, lift, emit, aret, Kill, handoff_trace.
  unfold bind at 1. unfold bind at 1. rewrite Hres.
  unfold bind, ret, panic. cbn [fst snd].
  destruct err as [e|]; [destruct e; try congruence|];
    cbn [fst snd]; rewrite (triggerOps_returns dir w1); cbn [fst snd];
    (destruct (decide (child ∈ procs (snd (triggerOps dir w1)))) as [Hin|Hin];
     [rewrite (bool_decide_eq_true_2 _ Hin)
     |rewrite (bool_decide_eq_false_2 _ Hin)]);
    destruct (stop gr); cbn [fst snd];
    rewrite <- ?app_assoc; reflexivity.
Qed.

(** X10: when Restart reports RestartFailed the callback rolls back: it
    logs the error and returns it with the controller as it was, the stop
    channel open, the server not stopped, no signal sent and no further
    process started.  This is the case whenever the child cannot be
    started. *)
Theorem restartCallback_rollback os_FindProcess (dir : string) (dl : Logger)
    (gr : @Graceful MountConfig) (tr : list (@Event CB)) c w e :
  conn gr = Some c ->
  fault w (SysExec (arg0 w)) = Some e ->
  exists w',
    restartCallback filepath_Join os_FindProcess dir dl gr tr w
    = (Ret ((gr, Some ErrGRestartFailed),
            tr ++ [EvLog dl "gracefule retart error: %v"
                     [ArgErr ErrGRestartFailed]]), w') /\
    spawned w' = spawned w /\ procs w' = procs w /\ files w' = files w /\
    now w' = now w.
Proof.
  intros Hc Hf.
  destruct (Restart_launch_failure filepath_Join os_FindProcess gr c w e
              Hc Hf) as (w' & Hres & Hfiles & Hprocs & Hnow & Hsp & _).
  exists w'. split; [|auto].
  now apply restartCallback_failed with (child := 0).
Qed.


(** X12: the stop channel is closed by the first handover and never
    reopened, so a second one panics.  After a run of the callback that
    returned an error other than RestartFailed, the controller has its
    stop channel closed; and on a controller whose stop channel is closed
    the callback, on Unix, panics with "close of closed channel" whenever
    it gets to start a child. *)
Theorem restartCallback_second_handover_panics (dir : string) (dl : Logger)
    (gr : @Graceful MountConfig) :
  (forall os_FindProcess (tr tr1 : list (@Event CB)) w gr1 e w1,
     restartCallback filepath_Join os_FindProcess dir dl gr tr w
     = (Ret ((gr1, Some e), tr1), w1) ->
     e <> ErrGRestartFailed ->
     gr1 = set_stop true gr /\ stop gr1 = true /\ conn gr1 = conn gr) /\
  (forall (tr : list (@Event CB)) c w,
     stop gr = true ->
     conn gr = Some c ->
     fault w (SysExec (arg0 w)) = None ->
     fst (restartCallback filepath_Join unix_FindProcess dir dl gr tr w)
     = Panic "close of closed channel").
Proof.
  split.
  - intros FP tr tr1 w gr1 e w1 Hrun He.
    destruct (Restart filepath_Join FP gr w) as [[[child err]|msg] w0]
      eqn:Hres.
    + assert (Hcase : err = Some ErrGRestartFailed \/
                      err <> Some ErrGRestartFailed)
        by (destruct err as [[]|];
            (left; reflexivity) || (right; discriminate)).
      destruct Hcase as [->|Hne].
      * rewrite (restartCallback_failed FP dir dl gr tr w child w0 Hres)
          in Hrun. congruence.
      * rewrite (restartCallback_handoff FP dir dl gr tr w child err w0
                   Hres Hne) in Hrun.
        destruct (stop gr); [discriminate|].
        injection Hrun as <- _ _ _. repeat split.
    + unfold restartCallback, abind, lift, bind at 1 in Hrun.
      unfold bind at 1 in Hrun. rewrite Hres in Hrun. discriminate.
  - intros tr c w Hstop Hc Hf.
    assert (Hres : exists err w1,
      Restart filepath_Join unix_FindProcess gr w
      = (Ret (next_pid w, err), w1) /\ err <> Some ErrGRestartFailed).
    { rewrite (Restart_launched filepath_Join unix_FindProcess gr c w Hc Hf).
      destruct (Restart_wait_unix gr (next_pid w)
                  (getChildPath filepath_Join gr (next_pid w))
                  (Z.to_nat (RestartTimeout gr)) (launched gr c w))
        as [k [(Hk & _ & Hr)|(Hk & Hr)]]; rewrite Hr; eexists _, _;
        (split; [reflexivity | discriminate]). }
    destruct Hres as (err & w1 & Hres & Hne).
    rewrite (restartCallback_handoff unix_FindProcess dir dl gr tr w
               (next_pid w) err w1 Hres Hne), Hstop.
    reflexivity.
Qed.

End CallbackProperties.

(** ** The marker and the handshake between parent and child *)

Section Handshake.
Context {MountConfig CB : Type}.
Variable filepath_Join : string -> string -> string.

Lemma app_string_inv_head a b c : a +:+ b = a +:+ c -> b = c.
Proof.
  induction a as [|x a IH]; [auto|].
  change (String x (a +:+ b) = String x (a +:+ c) -> b = c).
  intros [= H]. auto.
Qed.

(** A non-negative int can be read back from its digits. *)
Lemma Itoa_nonneg u :
  0 <= u < 2 ^ 63 -> strconv.atoi_loop (strconv.Itoa u) 0 = Some u.
Proof.
  intros Hu. unfold strconv.Itoa.
  destruct (Z.ltb_spec u 0) as [?|_]; [lia|].
  destruct (formatBits_digits 20 20 u EmptyString)
    as (ds & Heq & _ & _ & Hval); [lia | lia | simpl; lia |].
  now rewrite Heq, app_string_nil.
Qed.

(** X13: the markers of two processes never coincide, and no marker is
    the pid file.  filepath.Join cleans what it joins, so it is not
    injective on all names; the names joined here are only "%s_%d" and
    "%s.pid" of the program name, and where Join keeps those apart in the
    run directory, as it does for a program name without separator,
    getChildPath is injective in the pid, for process ids in the range
    of int, and differs from the path WritePidFile writes. *)
Theorem marker_paths_distinct (gr : @Graceful MountConfig) (p q : Z) :
  (forall a b, run_name (progName gr) a -> run_name (progName gr) b ->
               filepath_Join (runDir gr) a = filepath_Join (runDir gr) b ->
               a = b) ->
  0 <= p < 2 ^ 63 -> 0 <= q < 2 ^ 63 ->
  (getChildPath filepath_Join gr p = getChildPath filepath_Join gr q ->
   p = q) /\
  getChildPath filepath_Join gr p
    <> pid_path filepath_Join (runDir gr) (progName gr).
Proof.
  intros Hinj Hp Hq. unfold getChildPath, pid_path.
  assert (Hmp : run_name (progName gr) (marker_name (progName gr) p))
    by (right; eauto).
  assert (Hmq : run_name (progName gr) (marker_name (progName gr) q))
    by (right; eauto).
  assert (Hpid : run_name (progName gr) (pid_name (progName gr)))
    by (left; reflexivity).
  split.
  - intros H. apply (Hinj _ _ Hmp Hmq) in H. unfold marker_name in H.
    apply app_string_inv_head in H.
    apply (app_string_inv_head "_") in H.
    pose proof (Itoa_nonneg p Hp) as H1. pose proof (Itoa_nonneg q Hq) as H2.
    rewrite H in H1. congruence.
  - intros H. apply (Hinj _ _ Hmp Hpid) in H.
    unfold marker_name, pid_name in H.
    apply app_string_inv_head in H.
    discriminate.
Qed.

(** Up to the second in which the child acts, the files are as they were. *)
Lemma handshake_before (gr_child : @Graceful MountConfig) (sig : Signal)
    (cb : CB) (p : Z) (d : nat) (w : OS) :
  others w = child_calls_Ready filepath_Join gr_child sig cb p
               (now w + Z.of_nat d) ->
  forall j, (j <= d)%nat ->
    files (ticks j w) = files w /\ procs (ticks j w) = procs w /\
    now (ticks j w) = now w + Z.of_nat j.
Proof.
  intros Ho j. induction j as [|j IH]; intros Hj; [simpl; repeat split; lia|].
  destruct IH as (Hf & Hp & Hn); [lia|].
  rewrite ticks_succ_r. unfold tick. cbn [files procs now].
  destruct (ticks_frame j w) as (_ & _ & _ & _ & _ & Hoth & _).
  rewrite Hoth, Ho, Hn, Hf, Hp. unfold child_calls_Ready.
  destruct (Z.eqb_spec (now w + Z.of_nat j) (now w + Z.of_nat d)); [lia|].
  cbn [fst snd]. repeat split. lia.
Qed.

(** X14: the handshake end to end.  The parent serves a session, no call
    fails, no marker for the child exists yet, and the child, a recovered
    process with the same run directory and program name, calls Ready
    [d] seconds after it was started.  Then Restart in the parent returns
    (childPid, nil) after [d + 1] seconds, the marker is gone again, and
    the pid file names the child. *)
Theorem handshake os_FindProcess (gr gr_child : @Graceful MountConfig)
    (c : @Connection MountConfig) (sig : Signal) (cb : CB) (d : nat)
    (w : OS) :
  conn gr = Some c ->
  (forall sc, fault w sc = None) ->
  recovered gr_child = true ->
  runDir gr_child = runDir gr ->
  progName gr_child = progName gr ->
  others w = child_calls_Ready filepath_Join gr_child sig cb (next_pid w)
               (now w + Z.of_nat d) ->
  files w !! getChildPath filepath_Join gr (next_pid w) = None ->
  getChildPath filepath_Join gr (next_pid w)
    <> pid_path filepath_Join (runDir gr) (progName gr) ->
  (S d < Z.to_nat (RestartTimeout gr))%nat ->
  exists w',
    Restart filepath_Join os_FindProcess gr w
    = (Ret (next_pid w, None), w') /\
    now w' = now w + Z.of_nat d + 1 /\
    files w' !! getChildPath filepath_Join gr (next_pid w) = None /\
    files w' !! pid_path filepath_Join (runDir gr) (progName gr)
    = Some (list_ascii_of_string (strconv.Itoa (next_pid w))).
Proof.
  intros Hc Hnf Hrec Hrd Hpn Ho Hfree Hne Hd.
  set (path := getChildPath filepath_Join gr (next_pid w)) in *.
  set (w1 := launched gr c w).
  assert (Ho1 : others w1 = child_calls_Ready filepath_Join gr_child sig cb
                              (next_pid w) (now w1 + Z.of_nat d)) by exact Ho.
  assert (Hpath : getChildPath filepath_Join gr_child (next_pid w) = path)
    by (unfold path, getChildPath; now rewrite Hrd, Hpn).
  assert (Hbefore : forall j, (j <= d)%nat ->
                      marker_seen path (ticks j w1) = false).
  { intros j Hj.
    destruct (handshake_before gr_child sig cb _ d w1 Ho1 j Hj) as (Hf & _).
    unfold marker_seen, Stat. rewrite fault_ticks.
    change (fault w1) with (fault w). rewrite Hnf, Hf.
    change (files w1) with (files w). now rewrite Hfree. }
  assert (Hfiles : files (ticks (S d) w1)
                   = touched path
                       (<[pid_path filepath_Join (runDir gr) (progName gr)
                          := list_ascii_of_string
                               (strconv.Itoa (next_pid w))]> (files w))).
  { destruct (handshake_before gr_child sig cb _ d w1 Ho1 d (le_n d))
      as (Hf & Hp & Hn).
    rewrite ticks_succ_r. unfold tick. cbn [files].
    destruct (ticks_frame d w1) as (_ & _ & _ & _ & _ & Hoth & _).
    rewrite Hoth, Ho1, Hn, Hf. unfold child_calls_Ready.
    rewrite Z.eqb_refl. cbn [fst].
    rewrite (Ready_after_pidfile filepath_Join gr_child sig cb []
               (child_view (next_pid w) (files w1)))
      by reflexivity.
    cbv zeta. rewrite Hrec. cbn [fault child_view pid snd files set_files].
    rewrite Hpath, Hrd, Hpn. reflexivity. }
  assert (Hseen : marker_seen path (ticks (S d) w1) = true).
  { unfold marker_seen, Stat. rewrite fault_ticks.
    change (fault w1) with (fault w). rewrite Hnf, Hfiles.
    unfold touched. rewrite lookup_insert_ne by congruence.
    rewrite Hfree, lookup_insert_eq. reflexivity. }
  rewrite (Restart_launched filepath_Join os_FindProcess gr c w Hc (Hnf _)).
  fold path w1.
  rewrite (Restart_wait_seen os_FindProcess gr (next_pid w) path _ (S d) w1
             Hd (fun j Hj => Hbefore j ltac:(lia)) Hseen).
  eexists. split; [reflexivity|].
  unfold observed. cbn [now files set_logged].
  destruct (Remove_frame path (ticks (S d) w1)) as (_ & _ & _ & Hn & _).
  split; [rewrite Hn, now_ticks; simpl now; lia|].
  unfold Remove. rewrite fault_ticks. change (fault w1) with (fault w).
  rewrite Hnf, Hfiles. unfold touched.
  rewrite lookup_insert_ne, Hfree by congruence.
  rewrite lookup_insert_eq. cbn [snd files set_files].
  split; [apply lookup_delete_eq|].
  rewrite lookup_delete_ne, lookup_insert_ne, lookup_insert_eq by congruence.
  reflexivity.
Qed.

End Handshake.

(** ** Further properties of the watch tasks *)

Section WatchCounting.
Context {MountConfig : Type}.
Implicit Types (s : @Watch MountConfig) (gr : @Graceful MountConfig).

Ltac watch_cases Hstep :=
  unfold watch_step in Hstep;
  repeat match type of Hstep with
         | context [match ?x with _ => _ end] =>
             let E := fresh "E" in destruct x eqn:E; try discriminate
         end;
  injection Hstep as <-.

(** Calls, signals in hand and signals in the channel never outnumber the
    deliveries; the channel holds one signal at most. *)
Lemma counting_step l s s' (k : nat) :
  (invoked s + received (tasks s) + length (restartNoti (ctl s)) <= k)%nat ->
  (length (restartNoti (ctl s)) <= 1)%nat ->
  watch_step l s = Some s' ->
  (invoked s' + received (tasks s') + length (restartNoti (ctl s'))
   <= k + (if is_deliver l then 1 else 0))%nat /\
  (length (restartNoti (ctl s')) <= 1)%nat /\
  length (tasks s') = length (tasks s).
Proof.
  intros Hk Hone Hstep.
  destruct l as [sig|i|i|i|i err]; watch_cases Hstep; cbn [is_deliver];
    cbn [ctl tasks invoked set_restartNoti set_restarting restartNoti];
    rewrite ?length_insert;
    try (match goal with
         | E : tasks _ !! _ = Some ?t |- context [<[_ := ?t']> _] =>
             pose proof (received_insert _ _ _ t' E) as Hrec;
             simpl in Hrec
         end).
  - unfold deliver.
    destruct (length (restartNoti (ctl s)) <? 1)%nat eqn:Hl.
    + apply Nat.ltb_lt in Hl.
      cbn [set_restartNoti restartNoti]. rewrite length_app. simpl. lia.
    + lia.
  - simpl in Hk, Hone. lia.
  - lia.
  - lia.
  - lia.
  - lia.
Qed.

Lemma counting_run tr : forall s s' (k : nat),
  (invoked s + received (tasks s) + length (restartNoti (ctl s)) <= k)%nat ->
  (length (restartNoti (ctl s)) <= 1)%nat ->
  watch_run tr s = Some s' ->
  (invoked s' + received (tasks s') + length (restartNoti (ctl s'))
   <= k + deliveries tr)%nat /\
  (length (restartNoti (ctl s')) <= 1)%nat /\
  length (tasks s') = length (tasks s).
Proof.
  induction tr as [|l tr IH]; intros s s' k Hk Hone Hrun; simpl in Hrun.
  - injection Hrun as <-. unfold deliveries. simpl. repeat split; lia.
  - destruct (watch_step l s) as [s1|] eqn:Hstep; [|discriminate].
    destruct (counting_step l s s1 k Hk Hone Hstep) as (Hk1 & Hone1 & Hlen1).
    destruct (IH s1 s' _ Hk1 Hone1 Hrun) as (Hk' & Hone' & Hlen').
    repeat split; [|assumption|congruence].
    unfold deliveries in *. rewrite filter_cons.
    destruct l; cbn [is_deliver] in *;
      destruct (decide _) as [?|?]; try congruence; simpl; lia.
Qed.

(** X15: no restart without a signal.  From a controller whose channel is
    empty, as NewGraceful leaves it, and any number of watch tasks, the
    callback has been called at most as often as signals were delivered,
    and the channel never holds more than one signal: a burst is kept as
    one. *)
Theorem no_spurious_restart gr (n : nat) (tr : list Label) s :
  restartNoti gr = [] ->
  watch_run tr (watch_init gr n) = Some s ->
  (invoked s <= deliveries tr)%nat /\
  (length (restartNoti (ctl s)) <= 1)%nat.
Proof.
  intros Hch Hrun.
  destruct (counting_run tr (watch_init gr n) s 0) as (Hk & Hone & _);
    [| |exact Hrun|].
  - unfold watch_init. simpl. rewrite received_replicate, Hch. simpl. lia.
  - unfold watch_init. simpl. rewrite Hch. simpl. lia.
  - split; [lia | exact Hone].
Qed.

Lemma tasks_length_run tr : forall s s',
  watch_run tr s = Some s' -> length (tasks s') = length (tasks s).
Proof.
  induction tr as [|l tr IH]; intros s s' Hrun; simpl in Hrun.
  - now injection Hrun as <-.
  - destruct (watch_step l s) as [s1|] eqn:Hstep; [|discriminate].
    rewrite (IH s1 s' Hrun).
    destruct l as [sig|i|i|i|i err]; watch_cases Hstep; simpl;
      rewrite ?length_insert; reflexivity.
Qed.

(** Once the only task has returned, signals can still be delivered and
    nothing else can happen. *)
Lemma only_deliveries_step l s s' :
  tasks s = [Exited] -> watch_step l s = Some s' ->
  is_deliver l = true /\ tasks s' = [Exited] /\ invoked s' = invoked s.
Proof.
  intros Ht Hstep.
  destruct l as [sig|i|i|i|i err]; unfold watch_step in Hstep;
    rewrite ?Ht in Hstep;
    try (destruct i as [|i]; simpl in Hstep; try destruct err;
         discriminate).
  injection Hstep as <-. simpl. auto.
Qed.

(** X16: with the single watch task that Ready starts, a callback that
    returns nil ends all restarts: afterwards no step but the delivery of
    signals is possible, so the callback is never called again, whatever
    arrives. *)
Theorem single_watcher_stops gr (tr1 tr2 : list Label) s s1 s2 :
  watch_run tr1 (watch_init gr 1) = Some s ->
  watch_step (Return 0 None) s = Some s1 ->
  watch_run tr2 s1 = Some s2 ->
  invoked s2 = invoked s1 /\
  forallb is_deliver tr2 = true /\
  tasks s2 = [Exited].
Proof.
  intros Hrun1 Hret Hrun2.
  pose proof (tasks_length_run tr1 _ _ Hrun1) as Hlen. simpl in Hlen.
  assert (Ht1 : tasks s1 = [Exited]).
  { watch_cases Hret. simpl.
    destruct (tasks s) as [|x [|y r]]; simpl in Hlen; try discriminate.
    reflexivity. }
  clear Hrun1 Hret Hlen. revert s1 Ht1 Hrun2.
  induction tr2 as [|l tr2 IH]; intros s1 Ht1 Hrun2; simpl in Hrun2.
  - injection Hrun2 as <-. auto.
  - destruct (watch_step l s1) as [s'|] eqn:Hstep; [|discriminate].
    destruct (only_deliveries_step l s1 s' Ht1 Hstep) as (Hl & Ht' & Hi).
    destruct (IH s' Ht' Hrun2) as (Hinv & Hall & Hts).
    simpl. rewrite Hl, Hall. repeat split; congruence.
Qed.

End WatchCounting.

(** ** The further properties at concrete inputs *)

Lemma Restart_launch_failure_rollback_witness :
  exists w',
    Restart plain_join table_FindProcess serving_ctl
      (mk_world exec_denied quiet)
    = (Ret (0, Some ErrGRestartFailed), w') /\
    files w' = ∅ /\ spawned w' = [] /\ now w' = 0.
Proof.
  destruct (Restart_launch_failure_rollback plain_join table_FindProcess
              serving_ctl session_7_31 (mk_world exec_denied quiet) EACCES
              eq_refl eq_refl)
    as (w' & Hres & Hf & _ & Hn & Hs & _).
  exists w'. repeat split; assumption.
Defined.

Lemma Restart_unix_outcomes_witness :
  exists r w',
    Restart plain_join unix_FindProcess serving_ctl
      (mk_world no_fault child_exits) = (Ret r, w') /\
    (r = (101, None) /\ 0 <= now w' < 60 \/
     r = (101, Some ErrGRestartChildNotReady) /\ now w' = 60).
Proof.
  destruct (Restart_unix_outcomes plain_join serving_ctl session_7_31
              (mk_world no_fault child_exits) eq_refl)
    as (r & w' & Hres & _ & Hok).
  exists r, w'. split; [exact Hres|]. exact (Hok eq_refl).
Defined.

Lemma Restart_child_inherits_witness :
  exists r w',
    Restart plain_join unix_FindProcess serving_ctl world0 = (Ret r, w') /\
    (child_env <$> spawned w')
    = [ <["_GRACEFUL_RESTART"%string := ver_str session_7_31]> ∅ ] /\
    (child_extra <$> spawned w') = [ [None] ].
Proof.
  destruct (Restart_child_inherits plain_join serving_ctl session_7_31
              world0 eq_refl eq_refl)
    as (r & w' & Hres & Hsp & _).
  exists r, w'. split; [exact Hres|]. rewrite Hsp. split; reflexivity.
Defined.

Lemma Restart_nonpositive_timeout_witness :
  Restart plain_join unix_FindProcess (set_RestartTimeout 0 serving_ctl)
    world_stale_marker
  = (Ret (101, Some ErrGRestartChildNotReady),
     launched (set_RestartTimeout 0 serving_ctl) session_7_31
       world_stale_marker) /\
  files (launched (set_RestartTimeout 0 serving_ctl) session_7_31
           world_stale_marker) !! marker_101 = Some [].
Proof.
  destruct (Restart_nonpositive_timeout plain_join
              (set_RestartTimeout 0 serving_ctl) session_7_31
              world_stale_marker eq_refl eq_refl)
    as (Hres & Hf & _); [simpl; lia|].
  split; [exact Hres|]. rewrite Hf. reflexivity.
Defined.

Lemma recovered_startup_witness :
  exists (gr : @Graceful unit) w1,
    NewGraceful "debug" "/run" "qfs-fuse" (with_record "7,31") = (Ret gr, w1) /\
    recoveredVer gr = [7; 31] /\
    GetConnection no_handshake gr tt "debug" "error" (Some fuse_dev) w1
    = (Ret (set_conn
              (Some (recovered_conn tt "debug" "error" (Some fuse_dev) 7 31))
              gr, None), w1).
Proof.
  destruct (recovered_startup no_handshake session_7_31 "debug" "/run"
              "qfs-fuse" tt "debug" "error" (Some fuse_dev)
              (with_record "7,31"))
    as (gr & w1 & Hnew & _ & Hver & _ & Hconn);
    [simpl; lia | simpl; lia | reflexivity |].
  exists gr, w1. repeat split; assumption.
Defined.

Lemma GetConnection_early_error_witness :
  GetConnection no_handshake (recovered_ctl [7]) tt "debug" "error"
    (Some fuse_dev) (with_record "7")
  = (Ret (recovered_ctl [7], Some (ErrMsg "Invalid version length")),
     with_record "7").
Proof.
  destruct (GetConnection_early_error no_handshake (recovered_ctl [7]) tt
              "debug" "error" (Some fuse_dev) (with_record "7") eq_refl)
    as (_ & Hlen).
  apply Hlen; [discriminate | vm_compute; discriminate].
Defined.

Lemma WritePidFile_failure_witness :
  exists w',
    WritePidFile plain_join "/run" "qfs-fuse" world_pid7_no_truncate
    = (Ret (Some (ErrPath "truncate" "/run/qfs-fuse.pid" EIO)), w') /\
    files w' !! "/run/qfs-fuse.pid"%string
    = Some (list_ascii_of_string "723456").
Proof.
  destruct (WritePidFile_failure plain_join "/run" "qfs-fuse"
              world_pid7_no_truncate) as (_ & _ & Htrunc).
  destruct (Htrunc EIO (list_ascii_of_string "123456")
              eq_refl eq_refl eq_refl eq_refl eq_refl)
    as (w' & Hres & Hfile).
  exists w'. split; [exact Hres | exact Hfile].
Defined.

Lemma Ready_success_witness :
  exists w',
    Ready plain_join (recovered_ctl [7; 31]) SIGHUP tt [] world0
    = (Ret (None, ready_trace (recovered_ctl [7; 31]) SIGHUP tt 100), w') /\
    files w' !! "/run/qfs-fuse.pid"%string
    = Some (list_ascii_of_string "100") /\
    files w' !! "/run/qfs-fuse_100"%string = Some [].
Proof.
  destruct (Ready_success plain_join (recovered_ctl [7; 31]) SIGHUP tt []
              world0 eq_refl eq_refl eq_refl eq_refl eq_refl
              (fun _ => eq_refl))
    as (w' & Hres & Hpid & Hmark & _); [discriminate|].
  exists w'. split; [exact Hres|]. split; [exact Hpid | exact Hmark].
Defined.

Lemma Ready_failure_witness :
  exists w',
    Ready plain_join (recovered_ctl [7; 31]) SIGHUP tt []
      (mk_world marker_open_denied quiet)
    = (Ret (Some (ErrCannotCreate "/run/qfs-fuse_100"
                    (ErrPath "open" "/run/qfs-fuse_100" EACCES)), []), w') /\
    files w' !! "/run/qfs-fuse.pid"%string
    = Some (list_ascii_of_string "100").
Proof.
  destruct (Ready_failure plain_join (recovered_ctl [7; 31]) SIGHUP tt []
              (mk_world marker_open_denied quiet)) as (_ & _ & Hmark).
  exact (Hmark EACCES eq_refl eq_refl eq_refl eq_refl eq_refl eq_refl
           eq_refl).
Defined.

(** A pid file that cannot be opened: nothing is registered. *)
Example Ready_open_denied :
  Ready plain_join fresh_ctl SIGHUP tt [] (mk_world open_denied quiet)
  = (Ret (Some (ErrCannotCreatePidfile
                  (ErrPath "open" "/run/qfs-fuse.pid" EACCES)), []),
     mk_world open_denied quiet).
Proof. reflexivity. Qed.

Lemma restartCallback_rollback_witness :
  exists w',
    restartCallback plain_join unix_FindProcess "/mnt/qfs" "debug"
      serving_ctl ([] : list (@Event unit)) (mk_world exec_denied quiet)
    = (Ret ((serving_ctl, Some ErrGRestartFailed),
            [EvLog "debug" "gracefule retart error: %v"
               [ArgErr ErrGRestartFailed]]), w') /\
    spawned w' = [].
Proof.
  destruct (restartCallback_rollback plain_join unix_FindProcess "/mnt/qfs"
              "debug" serving_ctl ([] : list (@Event unit)) session_7_31
              (mk_world exec_denied quiet) EACCES eq_refl eq_refl)
    as (w' & Hres & Hsp & _).
  exists w'. split; [exact Hres | exact Hsp].
Defined.


(** The child never writes its marker: after 60 seconds the callback
    stops the server and signals the child all the same, and returns
    RestartChildNotReady. *)
Example restartCallback_not_ready :
  fst (restartCallback plain_join unix_FindProcess "/mnt/qfs" "debug"
         serving_ctl ([] : list (@Event unit)) world0)
  = Ret ((set_stop true serving_ctl, Some ErrGRestartChildNotReady),
         [EvLog "debug" "gracefule retart error: %v"
            [ArgErr ErrGRestartChildNotReady];
          EvServerStop; EvKill 101 SIGUSR1]).
Proof. vm_compute. reflexivity. Qed.

Lemma restartCallback_second_handover_panics_witness :
  fst (restartCallback plain_join unix_FindProcess "/mnt/qfs" "debug"
         (set_stop true serving_ctl) ([] : list (@Event unit)) world0)
  = Panic "close of closed channel".
Proof.
  destruct (restartCallback_second_handover_panics (CB := unit) plain_join
              "/mnt/qfs" "debug" (set_stop true serving_ctl)) as (_ & Hp).
  exact (Hp [] session_7_31 world0 eq_refl eq_refl eq_refl).
Defined.

Lemma marker_paths_distinct_witness :
  (getChildPath plain_join fresh_ctl 100 = getChildPath plain_join fresh_ctl 101
   -> 100 = 101) /\
  getChildPath plain_join fresh_ctl 100
    <> pid_path plain_join (runDir fresh_ctl) (progName fresh_ctl).
Proof.
  apply (marker_paths_distinct plain_join fresh_ctl 100 101).
  - intros a b _ _ H. unfold plain_join in H.
    apply app_string_inv_head in H.
    exact (app_string_inv_head "/" a b H).
  - lia.
  - lia.
Defined.

Lemma handshake_witness :
  exists w',
    Restart plain_join unix_FindProcess serving_ctl world_handshake
    = (Ret (101, None), w') /\
    now w' = 3 /\
    files w' !! marker_101 = None /\
    files w' !! "/run/qfs-fuse.pid"%string
    = Some (list_ascii_of_string "101").
Proof.
  destruct (handshake plain_join unix_FindProcess serving_ctl
              (recovered_ctl [7; 31]) session_7_31 SIGHUP tt 2
              world_handshake eq_refl (fun _ => eq_refl) eq_refl eq_refl
              eq_refl eq_refl eq_refl)
    as (w' & Hres & Hnow & Hmark & Hpid).
  - discriminate.
  - apply Nat.ltb_lt. reflexivity.
  - exists w'. repeat split; assumption.
Defined.

Lemma no_spurious_restart_witness :
  exists s : @Watch unit,
    watch_run [Deliver 1; Deliver 1; Deliver 1; Receive 0%nat;
               Invoke 0%nat] (watch_init fresh_ctl 1) = Some s /\
    (invoked s <= 3)%nat /\ (length (restartNoti (ctl s)) <= 1)%nat.
Proof.
  eexists. split; [reflexivity|].
  apply (no_spurious_restart fresh_ctl 1
           [Deliver 1; Deliver 1; Deliver 1; Receive 0%nat; Invoke 0%nat]);
    reflexivity.
Defined.

Lemma single_watcher_stops_witness :
  exists s s1 s2 : @Watch unit,
    watch_run [Deliver 1; Receive 0%nat; Invoke 0%nat]
      (watch_init fresh_ctl 1) = Some s /\
    watch_step (Return 0 None) s = Some s1 /\
    watch_run [Deliver 1; Deliver 1] s1 = Some s2 /\
    invoked s2 = invoked s1 /\ tasks s2 = [Exited].
Proof.
  eexists _, _, _.
  split; [reflexivity|]. split; [reflexivity|]. split; [reflexivity|].
  destruct (single_watcher_stops fresh_ctl
              [Deliver 1; Receive 0%nat; Invoke 0%nat] [Deliver 1; Deliver 1]
              _ _ _ eq_refl eq_refl eq_refl) as (Hinv & _ & Ht).
  split; [exact Hinv | exact Ht].
Defined.
